(** * National boundaries API: filter-and-query engine

    A shallow embedding of [src/filters.py] and [src/services.py] (with the
    parts of [src/schemas.py] and [src/models.py] they read), and the
    properties of the search/lookup pipeline proved on it.

    Conventions of the embedding.
    - A Python generator of predicates that is always drained with [list(...)]
      is a computation returning the list of yielded predicates, or the
      exception raised while draining ([result]).
    - SQLAlchemy expressions are kept as syntax ([Atom], [Clause], [Select]);
      what the data store answers is given by a [Session], the counterpart of
      the [db] argument the source threads through.
    - Strings are byte strings (the UTF-8 bytes of a Python [str]); what
      Python computes on a string before binding it, [s.lower()], is kept as
      that operation ([PyLower]), since it follows the Unicode case mapping.
      JSON numbers ([Optional[float]]) are rationals, whose only use by the
      code is the truth test [if x:]. *)

From Stdlib Require Import List String Ascii ZArith QArith Bool Lia.
From Stdlib Require Import Sorting.Sorted Sorting.Permutation.
Import ListNotations.
Local Open Scope string_scope.
Local Open Scope list_scope.
Local Open Scope Z_scope.

Set Implicit Arguments.

(** ** Exceptions and the error monad *)

Inductive exn : Type :=
| InvalidFilterGeometry (message field value : string)
| ValueError (msg : string)
| TypeError (msg : string)
| AttributeError (msg : string)
| OperationalError (msg : string)
| DatabaseError (msg : string).

Inductive result (A : Type) : Type :=
| Ok (a : A)
| Raise (e : exn).
Arguments Ok {A} a.
Arguments Raise {A} e.

Definition bind {A B : Type} (m : result A) (k : A -> result B) : result B :=
  match m with
  | Ok a => k a
  | Raise e => Raise e
  end.

Notation "x <- m ;; k" := (bind m (fun x => k))
  (at level 61, m at next level, right associativity).

(** [yield from g1; yield from g2], drained. *)
Definition yield_from {A : Type} (g1 g2 : result (list A)) : result (list A) :=
  xs <- g1 ;; ys <- g2 ;; Ok (xs ++ ys).

Notation "g1 +++ g2" := (yield_from g1 g2) (at level 60, right associativity).

(** ** Python truth tests used as presence checks *)

Definition lower_ascii (c : ascii) : ascii :=
  let n := N_of_ascii c in
  if ((65 <=? n) && (n <=? 90))%N then ascii_of_N (n + 32) else c.

(** Folding of the 26 ASCII upper-case letters to lower case, the other
    bytes unchanged: what the NOCASE collation of the data store compares. *)
Fixpoint str_lower (s : string) : string :=
  match s with
  | EmptyString => EmptyString
  | String c s' => String (lower_ascii c) (str_lower s')
  end.

(** [if s:] for [s : Optional[str]]: neither [None] nor the empty string. *)
Definition truthy_str (s : option string) : option string :=
  match s with
  | Some EmptyString => None
  | Some v => Some v
  | None => None
  end.

(** [if x:] for [x : Optional[float]]: neither [None] nor zero. *)
Definition truthy_num (x : option Q) : option Q :=
  match x with
  | Some q => if Qeq_bool q 0%Q then None else Some q
  | None => None
  end.

(** [if xs and len(xs) > 0] for [xs : Optional[List[int]]]. *)
Definition truthy_list {A : Type} (xs : option (list A)) : option (list A) :=
  match xs with
  | Some (x :: l) => Some (x :: l)
  | _ => None
  end.

(** ** models.py: mapped classes and their columns *)

Inductive ColType : Type := Integer | String_ | Double | Date | GeometryT.

(** An [InstrumentedAttribute]: a column of a mapped table. *)
Record Attr : Type := mkAttr {
  a_table : string;
  a_name : string;
  a_type : ColType
}.

Record ModelClass : Type := mkModel {
  tablename : string;
  mc_columns : list (string * ColType)
}.

Definition BaseBoundaries_columns : list (string * ColType) :=
  [("feature_id", Integer); ("code", Integer); ("name", String_);
   ("geom", GeometryT)].

Module models.
Definition Counties : ModelClass :=
  mkModel "counties"
    (BaseBoundaries_columns ++ [("area_ha", Double); ("created_at", Date)]).
Definition Municipalities : ModelClass :=
  mkModel "municipalities"
    (BaseBoundaries_columns ++
     [("area_ha", Double); ("created_at", Date); ("county_code", Integer)]).
Definition Elderships : ModelClass :=
  mkModel "elderships"
    (BaseBoundaries_columns ++
     [("area_ha", Double); ("created_at", Date);
      ("municipality_code", Integer)]).
Definition ResidentialAreas : ModelClass :=
  mkModel "residential_areas"
    (BaseBoundaries_columns ++
     [("area_ha", Double); ("created_at", Date);
      ("municipality_code", Integer)]).
Definition Streets : ModelClass :=
  mkModel "streets"
    (BaseBoundaries_columns ++
     [("length_m", Double); ("full_name", String_); ("created_at", Date);
      ("residential_area_code", Integer)]).
Definition Addresses : ModelClass :=
  mkModel "addresses"
    [("feature_id", Integer); ("code", Integer);
     ("plot_or_building_number", String_); ("postal_code", String_);
     ("building_block_number", String_); ("geom", GeometryT);
     ("created_at", Date); ("municipality_code", Integer);
     ("residential_area_code", Integer); ("street_code", Integer)].
Definition Rooms : ModelClass :=
  mkModel "rooms"
    [("code", Integer); ("room_number", String_); ("created_at", Date);
     ("address_code", Integer)].
Definition Parcels : ModelClass :=
  mkModel "parcels"
    [("ogc_fid", Integer); ("unique_number", Integer);
     ("cadastral_number", String_); ("status_id", Integer);
     ("purpose_id", Integer); ("updated_at", Date); ("area_ha", Double);
     ("municipality_code", Integer); ("geom", GeometryT)].
Definition StatusTypes : ModelClass :=
  mkModel "status_types"
    [("status_id", Integer); ("name", String_); ("full_name", String_);
     ("name_en", String_); ("full_name_en", String_); ("updated_at", Date)].
Definition PurposeTypes : ModelClass :=
  mkModel "purpose_types"
    [("purpose_id", Integer); ("purpose_group_id", Integer);
     ("name", String_); ("full_name", String_); ("name_en", String_);
     ("full_name_en", String_); ("updated_at", Date)].
End models.

Fixpoint assoc {B : Type} (k : string) (l : list (string * B)) : option B :=
  match l with
  | [] => None
  | (k', v) :: l' => if String.eqb k k' then Some v else assoc k l'
  end.

(** [getattr(model_class, name)] on the mapped columns; a missing name
    raises [AttributeError]. *)
Definition getattr (m : ModelClass) (name : string) : result Attr :=
  match assoc name (mc_columns m) with
  | Some ty => Ok (mkAttr (tablename m) name ty)
  | None => Raise (AttributeError name)
  end.

Definition hasattr (m : ModelClass) (name : string) : bool :=
  match assoc name (mc_columns m) with
  | Some _ => true
  | None => false
  end.

(** [Model.column] for a column known to be mapped. *)
Definition col (m : ModelClass) (name : string) : Attr :=
  match assoc name (mc_columns m) with
  | Some ty => mkAttr (tablename m) name ty
  | None => mkAttr (tablename m) name Integer
  end.

(** ** schemas.py: the request side *)

Inductive SearchSortOrder : Type := asc | desc.
Inductive GeometryOutputFormat : Type := fmt_ewkt | fmt_ewkb.
Inductive GeometryFilterMethod : Type := intersects | contains_.

Record StringFilter : Type := mkStringFilter {
  sf_contains : option string;
  sf_exact : option string;
  sf_starts : option string
}.

(** [lte] is declared twice in the class body; the later declaration only
    replaces the description, the field is one. *)
Record NumberFilter : Type := mkNumberFilter {
  nf_eq : option Q;
  nf_gt : option Q;
  nf_gte : option Q;
  nf_lt : option Q;
  nf_lte : option Q
}.

Record GeometryFilter : Type := mkGeometryFilter {
  gf_method : GeometryFilterMethod;
  gf_ewkb : option string;
  gf_ewkt : option string;
  gf_geojson : option string
}.

Record GeneralBoundariesFilter : Type := mkGeneralBoundariesFilter {
  gb_codes : option (list Z);
  gb_feature_ids : option (list Z);
  gb_name : option StringFilter
}.

(** [StreetsFilter(GeneralBoundariesFilter)] adds [full_name]. *)
Record StreetsFilterSchema : Type := mkStreetsFilterSchema {
  st_general : GeneralBoundariesFilter;
  st_full_name : option StringFilter
}.

Record AddressesFilterSchema : Type := mkAddressesFilterSchema {
  ad_codes : option (list Z);
  ad_feature_ids : option (list Z);
  ad_plot_or_building_number : option StringFilter;
  ad_building_block_number : option StringFilter;
  ad_postal_code : option StringFilter
}.

Record RoomsFilterSchema : Type := mkRoomsFilterSchema {
  rm_codes : option (list Z);
  rm_room_number : option StringFilter
}.

Record ParcelsFilterSchema : Type := mkParcelsFilterSchema {
  pc_unique_numbers : option (list Z);
  pc_unique_number : option StringFilter;
  pc_cadastral_number : option StringFilter;
  pc_area_ha : option NumberFilter
}.

(** One filter group of the boundary, address and room searches.  The
    request classes form an inheritance chain that only adds optional
    fields; a group of a shorter class is a group whose further fields are
    [None]. *)
Record SearchFilterRequest : Type := mkSearchFilterRequest {
  geometry : option GeometryFilter;
  counties : option GeneralBoundariesFilter;
  municipalities : option GeneralBoundariesFilter;
  elderships : option GeneralBoundariesFilter;
  residential_areas : option GeneralBoundariesFilter;
  streets : option StreetsFilterSchema;
  addresses : option AddressesFilterSchema;
  rooms : option RoomsFilterSchema
}.

Record SearchRequest : Type := mkSearchRequest {
  filters : list SearchFilterRequest
}.

(** ** SQL expressions built by the code *)

Inductive GeomFromFunc : Type := GeomFromEWKB | ST_GeomFromEWKT | GeomFromGeoJSON.

Inductive GeomExpr : Type :=
| GeomFrom (fn : GeomFromFunc) (raw : string)
| ST_Transform (g : GeomExpr) (srid : Z).

Inductive FilterFunc : Type := ST_Intersects | ST_Contains.

(** A string Python computes before it is bound into the query:
    [PyLower s] is [s.lower()], the Unicode-aware lower-casing of [str]. *)
Inductive PyStr : Type := PyLower (s : string).

Inductive Atom : Type :=
| LowerEq (f : Attr) (s : PyStr)       (* func.lower(f) == s *)
| IStartsWith (f : Attr) (s : string)  (* f.istartswith(s) *)
| IContains (f : Attr) (s : string)    (* f.icontains(s) *)
| In_ (f : Attr) (vs : list Z)         (* f.in_(vs) *)
| NumEq (f : Attr) (x : Q)             (* f == x *)
| NumLt (f : Attr) (x : Q)             (* f < x *)
| NumLe (f : Attr) (x : Q)             (* f <= x *)
| NumGt (f : Attr) (x : Q)             (* f > x *)
| NumGe (f : Attr) (x : Q)             (* f >= x *)
| CodeEq (f : Attr) (code : Z)         (* f == code *)
| Spatial (fn : FilterFunc) (g : GeomExpr) (f : Attr). (* fn(g, f) *)

(** Boolean clause lists: [and_] and [or_] applied to the unpacked list. *)
#[local] Unset Elimination Schemes.
Inductive Clause : Type :=
| Pred (a : Atom)
| and_ (cs : list Clause)
| or_ (cs : list Clause).
#[local] Set Elimination Schemes.

(** ** filters.py: the predicate builders *)

Definition _filter_by_string_field (string_filter : StringFilter)
    (string_field : Attr) : list Clause :=
  match truthy_str (sf_exact string_filter) with
  | Some exact => [Pred (LowerEq string_field (PyLower exact))]
  | None =>
    match truthy_str (sf_starts string_filter) with
    | Some starts => [Pred (IStartsWith string_field starts)]
    | None =>
      match truthy_str (sf_contains string_filter) with
      | Some contains => [Pred (IContains string_field contains)]
      | None => []
      end
    end
  end.

Definition _filter_by_number_field (number_filter : NumberFilter)
    (number_field : Attr) : list Clause :=
  match truthy_num (nf_eq number_filter) with
  | Some eq => [Pred (NumEq number_field eq)]
  | None =>
    (match truthy_num (nf_lt number_filter) with
     | Some lt => [Pred (NumLt number_field lt)]
     | None =>
       match truthy_num (nf_lte number_filter) with
       | Some lte => [Pred (NumLe number_field lte)]
       | None => []
       end
     end)
    ++
    (match truthy_num (nf_gt number_filter) with
     | Some gt => [Pred (NumGt number_field gt)]
     | None =>
       match truthy_num (nf_gte number_filter) with
       | Some gte => [Pred (NumGe number_field gte)]
       | None => []
       end
     end)
  end.

(** ** The data store, as seen through [db] *)

Inductive value : Type :=
| VNull
| VNum (q : Q)
| VText (s : string).

(** A result row of the FROM clause: qualified column name to value. *)
Definition Row : Type := list (string * value).

Record Session : Type := mkSession {
  (** [db.execute(ST_IsValid(g)).scalar()]: the scalar, or the exception
      the engine raises. *)
  scalar_ST_IsValid : GeomExpr -> result (option Z);
  (** The rows of a mapped table with its to-one outer joins. *)
  table_rows : string -> list Row;
  (** The engine's three-valued verdict on one predicate for one row
      ([None] is SQL NULL). *)
  holds : Atom -> Row -> option bool;
  (** The engine's coercion of a text value used as a number. *)
  to_numeric : string -> Q
}.

(** ** filters.py: geometry validation *)

Definition _is_valid_geometry (db : Session) (geom : GeomExpr) : result bool :=
  match scalar_ST_IsValid db geom with
  | Ok v => Ok (match v with Some 1 => true | _ => false end)
  | Raise (OperationalError _) => Ok false
  | Raise e => Raise e
  end.

(** Both enumeration members are mapped; the source's [case _] arm, which
    raises [ValueError], has no member left to reach it. *)
Definition _get_filter_func (filter_method : GeometryFilterMethod)
    : result FilterFunc :=
  match filter_method with
  | intersects => Ok ST_Intersects
  | contains_ => Ok ST_Contains
  end.

Definition _filter_by_geometry (db : Session) (geom_value field : string)
    (geom_field : Attr) (filter_func_type : FilterFunc)
    (geom_from_func_type : GeomFromFunc) : result (list Clause) :=
  let geom := ST_Transform (GeomFrom geom_from_func_type geom_value) 3346 in
  valid <- _is_valid_geometry db geom ;;
  if negb valid
  then Raise (InvalidFilterGeometry "Invalid geometry" field geom_value)
  else Ok [Pred (Spatial filter_func_type geom geom_field)].

(** ** filters.py: the entity filter hierarchy *)

Inductive FilterClass : Type :=
| CountiesFilter
| MunicipalitiesFilter
| EldershipsFilter
| ResidentialAreasFilter
| StreetsFilter
| AddressesFilter
| RoomsFilter.

(** [self.Meta.geom_field]. *)
Definition Meta_geom_field (self : FilterClass) : option Attr :=
  match self with
  | CountiesFilter => Some (col models.Counties "geom")
  | MunicipalitiesFilter => Some (col models.Municipalities "geom")
  | EldershipsFilter => Some (col models.Elderships "geom")
  | ResidentialAreasFilter => Some (col models.ResidentialAreas "geom")
  | StreetsFilter => Some (col models.Streets "geom")
  | AddressesFilter => Some (col models.Addresses "geom")
  | RoomsFilter => Some (col models.Addresses "geom")
  end.

Definition _apply_geometry_filter (self : FilterClass)
    (geometry_filter : GeometryFilter) (db : Session) : result (list Clause) :=
  filter_func_type <- _get_filter_func (gf_method geometry_filter) ;;
  geom_field <- match Meta_geom_field self with
                | Some g => Ok g
                | None => Raise (ValueError "geom_field in meta is not defined")
                end ;;
  (match truthy_str (gf_ewkb geometry_filter) with
   | Some ewkb =>
       _filter_by_geometry db ewkb "ewkb" geom_field filter_func_type GeomFromEWKB
   | None => Ok []
   end)
  +++
  (match truthy_str (gf_ewkt geometry_filter) with
   | Some ewkt =>
       _filter_by_geometry db ewkt "ewkt" geom_field filter_func_type
         ST_GeomFromEWKT
   | None => Ok []
   end)
  +++
  (match truthy_str (gf_geojson geometry_filter) with
   | Some geojson =>
       _filter_by_geometry db geojson "geojson" geom_field filter_func_type
         GeomFromGeoJSON
   | None => Ok []
   end).

(** [if x := e: yield from k(x)] *)
Definition when_set {A B : Type} (x : option A) (k : A -> result (list B))
    : result (list B) :=
  match x with
  | Some a => k a
  | None => Ok []
  end.

Definition _apply_general_boundaries_filter
    (general_boundaries_filter : GeneralBoundariesFilter)
    (model_class : ModelClass) : result (list Clause) :=
  when_set (if hasattr model_class "name"
            then gb_name general_boundaries_filter else None)
    (fun name => f <- getattr model_class "name" ;;
                 Ok (_filter_by_string_field name f))
  +++
  when_set (truthy_list (gb_feature_ids general_boundaries_filter))
    (fun feature_ids => f <- getattr model_class "feature_id" ;;
                        Ok [Pred (In_ f feature_ids)])
  +++
  when_set (truthy_list (gb_codes general_boundaries_filter))
    (fun codes => f <- getattr model_class "code" ;;
                  Ok [Pred (In_ f codes)]).

Definition BaseFilter_apply (self : FilterClass)
    (search_filter : SearchFilterRequest) (db : Session) : result (list Clause) :=
  when_set (geometry search_filter)
    (fun geometry_filter => _apply_geometry_filter self geometry_filter db).

Definition CountiesFilter_apply (self : FilterClass)
    (search_filter : SearchFilterRequest) (db : Session) : result (list Clause) :=
  BaseFilter_apply self search_filter db
  +++
  when_set (counties search_filter)
    (fun counties_filter =>
       _apply_general_boundaries_filter counties_filter models.Counties).

Definition MunicipalitiesFilter_apply (self : FilterClass)
    (search_filter : SearchFilterRequest) (db : Session) : result (list Clause) :=
  CountiesFilter_apply self search_filter db
  +++
  when_set (municipalities search_filter)
    (fun municipalities_filter =>
       _apply_general_boundaries_filter municipalities_filter
         models.Municipalities).

Definition EldershipsFilter_apply (self : FilterClass)
    (search_filter : SearchFilterRequest) (db : Session) : result (list Clause) :=
  MunicipalitiesFilter_apply self search_filter db
  +++
  when_set (elderships search_filter)
    (fun elderships_filter =>
       _apply_general_boundaries_filter elderships_filter models.Elderships).

Definition ResidentialAreasFilter_apply (self : FilterClass)
    (search_filter : SearchFilterRequest) (db : Session) : result (list Clause) :=
  MunicipalitiesFilter_apply self search_filter db
  +++
  when_set (residential_areas search_filter)
    (fun residential_areas_filter =>
       _apply_general_boundaries_filter residential_areas_filter
         models.ResidentialAreas).

Definition StreetsFilter_apply (self : FilterClass)
    (search_filter : SearchFilterRequest) (db : Session) : result (list Clause) :=
  ResidentialAreasFilter_apply self search_filter db
  +++
  when_set (streets search_filter)
    (fun streets_filter =>
       _apply_general_boundaries_filter (st_general streets_filter)
         models.Streets
       +++
       when_set (st_full_name streets_filter)
         (fun full_name =>
            Ok (_filter_by_string_field full_name
                  (col models.Streets "full_name")))).

Definition _apply_streets_filters (address_filter : AddressesFilterSchema)
    : result (list Clause) :=
  when_set (ad_building_block_number address_filter)
    (fun sf => Ok (_filter_by_string_field sf
                     (col models.Addresses "building_block_number")))
  +++
  when_set (ad_plot_or_building_number address_filter)
    (fun sf => Ok (_filter_by_string_field sf
                     (col models.Addresses "plot_or_building_number")))
  +++
  when_set (ad_postal_code address_filter)
    (fun sf => Ok (_filter_by_string_field sf
                     (col models.Addresses "postal_code")))
  +++
  when_set (truthy_list (ad_feature_ids address_filter))
    (fun feature_ids =>
       Ok [Pred (In_ (col models.Addresses "feature_id") feature_ids)])
  +++
  when_set (truthy_list (ad_codes address_filter))
    (fun codes => Ok [Pred (In_ (col models.Addresses "code") codes)]).

Definition AddressesFilter_apply (self : FilterClass)
    (search_filter : SearchFilterRequest) (db : Session) : result (list Clause) :=
  StreetsFilter_apply self search_filter db
  +++
  when_set (addresses search_filter) _apply_streets_filters.

Definition _apply_rooms_filters (rooms_filter : RoomsFilterSchema)
    : result (list Clause) :=
  when_set (rm_room_number rooms_filter)
    (fun sf => Ok (_filter_by_string_field sf (col models.Rooms "room_number")))
  +++
  when_set (truthy_list (rm_codes rooms_filter))
    (fun codes => Ok [Pred (In_ (col models.Rooms "code") codes)]).

Definition RoomsFilter_apply (self : FilterClass)
    (search_filter : SearchFilterRequest) (db : Session) : result (list Clause) :=
  AddressesFilter_apply self search_filter db
  +++
  when_set (rooms search_filter) _apply_rooms_filters.

(** [ParcelsFilter._apply_parcels_filters], the parcel's own predicates and
    the one caller of the number builder. *)
Definition _apply_parcels_filters (parcel_filter : ParcelsFilterSchema)
    : result (list Clause) :=
  when_set (pc_cadastral_number parcel_filter)
    (fun sf => Ok (_filter_by_string_field sf
                     (col models.Parcels "cadastral_number")))
  +++
  when_set (truthy_list (pc_unique_numbers parcel_filter))
    (fun unique_numbers =>
       Ok [Pred (In_ (col models.Parcels "unique_number") unique_numbers)])
  +++
  when_set (pc_area_ha parcel_filter)
    (fun nf => Ok (_filter_by_number_field nf (col models.Parcels "area_ha"))).

(** Method resolution: [boundaries_filter.apply]. *)
Definition apply (self : FilterClass) (search_filter : SearchFilterRequest)
    (db : Session) : result (list Clause) :=
  match self with
  | CountiesFilter => CountiesFilter_apply self search_filter db
  | MunicipalitiesFilter => MunicipalitiesFilter_apply self search_filter db
  | EldershipsFilter => EldershipsFilter_apply self search_filter db
  | ResidentialAreasFilter => ResidentialAreasFilter_apply self search_filter db
  | StreetsFilter => StreetsFilter_apply self search_filter db
  | AddressesFilter => AddressesFilter_apply self search_filter db
  | RoomsFilter => RoomsFilter_apply self search_filter db
  end.

(** ** services.py: the query description *)

Inductive JsonObject : Type :=
| _county_object
| _municipality_object
| _flat_residential_area_object
| _residential_area_object
| _flat_street_object
| _address_short_object
| _purpose_group_object
| _purpose_type_object
| _status_type_object.

Inductive GeometryOutputType : Type := EWKTGeometry | Geometry_.

Inductive ColumnExpr : Type :=
| Column (a : Attr)
| Json (o : JsonObject)
(** [ST_Transform(field, srid, type_=ty).label("geometry")] *)
| GeometryLabel (field : Attr) (srid : option Z) (ty : GeometryOutputType).

Inductive OrderExpr : Type :=
| OAttr (a : Attr)
| OCollate (a : Attr) (collation : string)  (* operators.collate(a, c) *)
| OMul (a : Attr) (k : Z).                  (* a * k *)

(** An ORDER BY term: bare, [.asc()] or [.desc()]. *)
Inductive OrderTerm : Type :=
| Bare (e : OrderExpr)
| Asc (e : OrderExpr)
| Desc (e : OrderExpr).

Record Select : Type := mkSelect {
  sel_columns : list ColumnExpr;
  sel_from : ModelClass;
  sel_joins : list string;
  sel_where : list Clause;
  sel_order_by : list OrderTerm
}.

Definition select (columns : list ColumnExpr) (from_ : ModelClass)
    (joins : list string) : Select :=
  mkSelect columns from_ joins [] [].

(** [Select.where] / [Select.filter]: one more criterion. *)
Definition where_ (q : Select) (c : Clause) : Select :=
  mkSelect (sel_columns q) (sel_from q) (sel_joins q) (sel_where q ++ [c])
    (sel_order_by q).

(** [Select.order_by]: the terms are added after those already given. *)
Definition order_by (q : Select) (ts : list OrderTerm) : Select :=
  mkSelect (sel_columns q) (sel_from q) (sel_joins q) (sel_where q)
    (sel_order_by q ++ ts).

Inductive Service : Type :=
| CountiesService
| MunicipalitiesService
| EldershipsService
| ResidentialAreasService
| StreetsService
| AddressesService
| RoomsService
| ParcelsService.

Definition model_class (self : Service) : ModelClass :=
  match self with
  | CountiesService => models.Counties
  | MunicipalitiesService => models.Municipalities
  | EldershipsService => models.Elderships
  | ResidentialAreasService => models.ResidentialAreas
  | StreetsService => models.Streets
  | AddressesService => models.Addresses
  | RoomsService => models.Rooms
  | ParcelsService => models.Parcels
  end.

Definition _get_geometry_output_type
    (geometry_output_format : option GeometryOutputFormat)
    : result GeometryOutputType :=
  match geometry_output_format with
  | Some fmt_ewkt => Ok EWKTGeometry
  | Some fmt_ewkb => Ok Geometry_
  | None => Raise (ValueError "Unable to map geometry output format None")
  end.

Definition _get_geometry_field (field : Attr) (srid : option Z)
    (geometry_output_format : option GeometryOutputFormat) : result ColumnExpr :=
  geometry_output_type <- _get_geometry_output_type geometry_output_format ;;
  Ok (GeometryLabel field srid geometry_output_type).

(** The call [self._get_geometry_field(field, srid)] of four services: the
    third positional parameter has no default, so the call itself fails. *)
Definition _get_geometry_field_two_args (field : Attr) (srid : option Z)
    : result ColumnExpr :=
  Raise (TypeError
    "_get_geometry_field() missing 1 required positional argument: 'geometry_output_format'").

(** [if srid] for [srid : Optional[int]]. *)
Definition truthy_int (x : option Z) : bool :=
  match x with
  | Some z => negb (z =? 0)
  | None => false
  end.

(** [if fmt] for an optional non-empty string enumeration member. *)
Definition truthy_fmt (x : option GeometryOutputFormat) : bool :=
  match x with
  | Some _ => true
  | None => false
  end.

(** [cols + ([g] if c else [])] *)
Definition plus_if (cols : list ColumnExpr) (c : bool) (g : result ColumnExpr)
    : result (list ColumnExpr) :=
  if c then x <- g ;; Ok (cols ++ [x]) else Ok (cols ++ []).

Definition _get_select_query (self : Service) (srid : option Z)
    (geometry_output_format : option GeometryOutputFormat) : result Select :=
  match self with
  | CountiesService =>
      columns <- plus_if
        [Column (col models.Counties "code");
         Column (col models.Counties "feature_id");
         Column (col models.Counties "name");
         Column (col models.Counties "area_ha");
         Column (col models.Counties "area_ha");
         Column (col models.Counties "created_at")]
        (truthy_int srid && truthy_fmt geometry_output_format)
        (_get_geometry_field (col models.Counties "geom") srid
           geometry_output_format) ;;
      Ok (select columns models.Counties [])
  | MunicipalitiesService =>
      columns <- plus_if
        [Column (col models.Municipalities "code");
         Column (col models.Municipalities "feature_id");
         Column (col models.Municipalities "name");
         Column (col models.Municipalities "area_ha");
         Column (col models.Municipalities "created_at");
         Json _county_object]
        (truthy_int srid)
        (_get_geometry_field_two_args (col models.Municipalities "geom") srid) ;;
      Ok (select columns models.Municipalities ["municipalities.county"])
  | EldershipsService =>
      columns <- plus_if
        [Column (col models.Elderships "code");
         Column (col models.Elderships "feature_id");
         Column (col models.Elderships "name");
         Column (col models.Elderships "area_ha");
         Column (col models.Elderships "created_at");
         Json _municipality_object]
        (truthy_int srid)
        (_get_geometry_field_two_args (col models.Elderships "geom") srid) ;;
      Ok (select columns models.Elderships
            ["elderships.municipality"; "municipalities.county"])
  | ResidentialAreasService =>
      columns <- plus_if
        [Column (col models.ResidentialAreas "code");
         Column (col models.ResidentialAreas "feature_id");
         Column (col models.ResidentialAreas "name");
         Column (col models.ResidentialAreas "area_ha");
         Column (col models.ResidentialAreas "created_at");
         Json _municipality_object]
        (truthy_int srid)
        (_get_geometry_field_two_args (col models.ResidentialAreas "geom")
           srid) ;;
      Ok (select columns models.ResidentialAreas
            ["residential_areas.municipality"; "municipalities.county"])
  | StreetsService =>
      columns <- plus_if
        [Column (col models.Streets "code");
         Column (col models.Streets "feature_id");
         Column (col models.Streets "name");
         Column (col models.Streets "length_m");
         Column (col models.Streets "full_name");
         Column (col models.Streets "created_at");
         Json _residential_area_object]
        (truthy_int srid)
        (_get_geometry_field_two_args (col models.Streets "geom") srid) ;;
      Ok (select columns models.Streets
            ["streets.residential_area"; "residential_areas.municipality";
             "municipalities.county"])
  | AddressesService =>
      geometry_field <- _get_geometry_field (col models.Addresses "geom") srid
                          geometry_output_format ;;
      Ok (select
            [Column (col models.Addresses "feature_id");
             Column (col models.Addresses "code");
             Column (col models.Addresses "plot_or_building_number");
             Column (col models.Addresses "building_block_number");
             Column (col models.Addresses "postal_code");
             Column (col models.Addresses "created_at");
             Json _flat_residential_area_object;
             Json _municipality_object;
             Json _flat_street_object;
             geometry_field]
            models.Addresses
            ["addresses.municipality"; "municipalities.county";
             "addresses.street"; "addresses.residential_area"])
  | RoomsService =>
      columns <- plus_if
        [Column (col models.Rooms "code");
         Column (col models.Rooms "room_number");
         Column (col models.Rooms "created_at");
         Json _address_short_object]
        (truthy_int srid && truthy_fmt geometry_output_format)
        (_get_geometry_field (col models.Addresses "geom") srid
           geometry_output_format) ;;
      Ok (select columns models.Rooms
            ["rooms.address"; "addresses.municipality";
             "municipalities.county"; "addresses.street";
             "addresses.residential_area"])
  | ParcelsService =>
      geometry_field <- _get_geometry_field (col models.Parcels "geom") srid
                          geometry_output_format ;;
      Ok (select
            [Column (col models.Parcels "unique_number");
             Column (col models.Parcels "cadastral_number");
             Column (col models.Parcels "area_ha");
             Column (col models.Parcels "updated_at");
             Json _municipality_object;
             Json _purpose_type_object;
             Json _status_type_object;
             geometry_field]
            models.Parcels
            ["parcels.municipality"; "parcels.purpose"; "parcels.status";
             "purpose_types.purpose_group"; "municipalities.county"])
  end.

Definition _filter_by_code (self : Service) (query : Select) (code : Z)
    : Select :=
  match self with
  | CountiesService => where_ query (Pred (CodeEq (col models.Counties "code") code))
  | MunicipalitiesService =>
      where_ query (Pred (CodeEq (col models.Municipalities "code") code))
  | EldershipsService =>
      where_ query (Pred (CodeEq (col models.Elderships "code") code))
  | ResidentialAreasService =>
      where_ query (Pred (CodeEq (col models.ResidentialAreas "code") code))
  | StreetsService => where_ query (Pred (CodeEq (col models.Streets "code") code))
  | AddressesService =>
      where_ query (Pred (CodeEq (col models.Addresses "code") code))
  | RoomsService => where_ query (Pred (CodeEq (col models.Rooms "code") code))
  (* Currently not implemented - unique numbers are duplicates *)
  | ParcelsService => query
  end.

(** ** Executing a query description

    The data store evaluates the description.  Two facts of SQLAlchemy's
    rendering matter here.
    - [and_()] / [or_()] called with no argument is the deprecated empty
      construct: it renders as a blank SQL string, and a blank element of a
      clause list is left out of the rendered conjunction or disjunction.
    - [Select] renders WHERE only if its criteria render to a non-blank
      string; the criteria are joined with AND.
    A row is kept when the rendered WHERE evaluates to TRUE (not FALSE, not
    NULL). *)

Fixpoint blank (c : Clause) : bool :=
  match c with
  | Pred _ => false
  | and_ cs => forallb blank cs
  | or_ cs => forallb blank cs
  end.

Definition and3 (a b : option bool) : option bool :=
  match a, b with
  | Some false, _ => Some false
  | _, Some false => Some false
  | Some true, Some true => Some true
  | _, _ => None
  end.

Definition or3 (a b : option bool) : option bool :=
  match a, b with
  | Some true, _ => Some true
  | _, Some true => Some true
  | Some false, Some false => Some false
  | _, _ => None
  end.

(** Three-valued truth of a rendered (non-blank) clause on a row. *)
Fixpoint eval3 (db : Session) (r : Row) (c : Clause) : option bool :=
  match c with
  | Pred a => holds db a r
  | and_ cs =>
      fold_right (fun c' acc => if blank c' then acc
                                else and3 (eval3 db r c') acc) (Some true) cs
  | or_ cs =>
      fold_right (fun c' acc => if blank c' then acc
                                else or3 (eval3 db r c') acc) (Some false) cs
  end.

Definition is_true3 (v : option bool) : bool :=
  match v with
  | Some true => true
  | _ => false
  end.

Definition where_holds (db : Session) (criteria : list Clause) (r : Row)
    : bool :=
  forallb (fun c => blank c || is_true3 (eval3 db r c)) criteria.

(** Values of ORDER BY expressions. *)

Definition qualified (a : Attr) : string :=
  (a_table a ++ "." ++ a_name a)%string.

Definition row_get (r : Row) (a : Attr) : value :=
  match assoc (qualified a) r with
  | Some v => v
  | None => VNull
  end.

Definition order_value (db : Session) (e : OrderExpr) (r : Row) : value :=
  match e with
  | OAttr a => row_get r a
  | OCollate a _ =>
      (* NOCASE folds the ASCII upper-case letters before comparing *)
      match row_get r a with
      | VText s => VText (str_lower s)
      | v => v
      end
  | OMul a k =>
      match row_get r a with
      | VText s => VNum (to_numeric db s * inject_Z k)
      | VNum q => VNum (q * inject_Z k)
      | VNull => VNull
      end
  end.

(** Storage-class order: NULL, then numbers, then text. *)
Definition value_compare (v w : value) : comparison :=
  match v, w with
  | VNull, VNull => Eq
  | VNull, _ => Lt
  | _, VNull => Gt
  | VNum p, VNum q => (p ?= q)%Q
  | VNum _, VText _ => Lt
  | VText _, VNum _ => Gt
  | VText s, VText t => String.compare s t
  end.

Definition term_compare (db : Session) (t : OrderTerm) (r1 r2 : Row)
    : comparison :=
  match t with
  | Bare e | Asc e => value_compare (order_value db e r1) (order_value db e r2)
  | Desc e =>
      CompOpp (value_compare (order_value db e r1) (order_value db e r2))
  end.

Fixpoint rows_compare (db : Session) (ts : list OrderTerm) (r1 r2 : Row)
    : comparison :=
  match ts with
  | [] => Eq
  | t :: ts' =>
      match term_compare db t r1 r2 with
      | Eq => rows_compare db ts' r1 r2
      | c => c
      end
  end.

Definition rows_leb (db : Session) (ts : list OrderTerm) (r1 r2 : Row) : bool :=
  match rows_compare db ts r1 r2 with
  | Gt => false
  | _ => true
  end.

Fixpoint insert_row (leb : Row -> Row -> bool) (r : Row) (l : list Row)
    : list Row :=
  match l with
  | [] => [r]
  | x :: l' => if leb r x then r :: l else x :: insert_row leb r l'
  end.

Fixpoint sort_rows (leb : Row -> Row -> bool) (l : list Row) : list Row :=
  match l with
  | [] => []
  | x :: l' => insert_row leb x (sort_rows leb l')
  end.

(** [db.execute(query)]: the rows of the FROM clause kept by WHERE, in the
    order ORDER BY asks for.  The projection stays in [sel_columns]. *)
Definition execute (db : Session) (q : Select) : list Row :=
  sort_rows (rows_leb db (sel_order_by q))
    (filter (where_holds db (sel_where q))
       (table_rows db (tablename (sel_from q)))).

(** [Result.first()] *)
Definition first (rows : list Row) : option Row := hd_error rows.

(** The pagination collaborator, [paginate(db, query)]: the page request
    comes from the request context, the page holds the slice and the total. *)
Record Params : Type := mkParams { page : nat; size : nat }.

Record Page : Type := mkPage {
  items : list Row;
  total : nat;
  page_no : nat;
  page_size : nat
}.

Definition paginate (db : Session) (params : Params) (q : Select) : Page :=
  let rows := execute db q in
  mkPage (firstn (size params) (skipn ((page params - 1) * size params) rows))
    (List.length rows) (page params) (size params).

(** ** services.py: search and lookup *)

Definition is_String (t : ColType) : bool :=
  match t with
  | String_ => true
  | _ => false
  end.

Definition is_desc (o : SearchSortOrder) : bool :=
  match o with
  | desc => true
  | asc => false
  end.

(** The loop over [request.filters]. *)
Fixpoint collect_search_filters
    (boundaries_filter : SearchFilterRequest -> Session -> result (list Clause))
    (db : Session) (fs : list SearchFilterRequest)
    (query_search_filters : list Clause) : result (list Clause) :=
  match fs with
  | [] => Ok query_search_filters
  | search_filter :: fs' =>
      query_and_filters <- boundaries_filter search_filter db ;;
      collect_search_filters boundaries_filter db fs'
        (if (0 <? List.length query_and_filters)%nat
         then query_search_filters ++ [and_ query_and_filters]
         else query_search_filters)
  end.

(** The query [search] hands to [paginate]. *)
Definition search_query (self : Service) (db : Session)
    (sort_by_field : string) (sort_order : SearchSortOrder)
    (request : SearchRequest)
    (boundaries_filter : SearchFilterRequest -> Session -> result (list Clause))
    (srid : option Z) (geometry_output_format : option GeometryOutputFormat)
    : result Select :=
  query <- _get_select_query self srid geometry_output_format ;;
  query_search_filters <-
    collect_search_filters boundaries_filter db (filters request) [] ;;
  let query := where_ query (or_ query_search_filters) in
  sort_attr <- getattr (model_class self) sort_by_field ;;
  let sort_by :=
    if is_String (a_type sort_attr)
    then OCollate sort_attr "NOCASE" else OAttr sort_attr in
  let sort_by := if is_desc sort_order then Desc sort_by else Bare sort_by in
  let query :=
    if String.eqb sort_by_field "room_number"
       || String.eqb sort_by_field "plot_or_building_number"
    then (if is_desc sort_order
          then order_by query [Desc (OMul sort_attr 1)]
          else order_by query [Asc (OMul sort_attr 1)])
    else query in
  let query :=
    if hasattr (model_class self) "code"
    then order_by query [sort_by; Asc (OAttr (col (model_class self) "code"))]
    else order_by query [sort_by] in
  Ok query.

Definition search (self : Service) (db : Session)
    (sort_by_field : string) (sort_order : SearchSortOrder)
    (request : SearchRequest)
    (boundaries_filter : SearchFilterRequest -> Session -> result (list Clause))
    (srid : option Z) (geometry_output_format : option GeometryOutputFormat)
    (params : Params) : result Page :=
  query <- search_query self db sort_by_field sort_order request
             boundaries_filter srid geometry_output_format ;;
  Ok (paginate db params query).

Definition get_by_code (self : Service) (db : Session) (code : Z)
    (geometry_output_format : option GeometryOutputFormat) (srid : option Z)
    : result (option Row) :=
  query <- _get_select_query self srid geometry_output_format ;;
  let query := _filter_by_code self query code in
  Ok (first (execute db query)).

(** ** A small data store for running the pipeline *)

Module Sample.

Fixpoint digit_prefix (s : string) (acc : Z) : Z :=
  match s with
  | EmptyString => acc
  | String c s' =>
      let n := Z.of_N (N_of_ascii c) in
      if (48 <=? n) && (n <=? 57)
      then digit_prefix s' (10 * acc + (n - 48))
      else acc
  end.

(** Text used as a number: its leading run of decimal digits. *)
Definition numeric_prefix (s : string) : Q := inject_Z (digit_prefix s 0).

Definition VInt (z : Z) : value := VNum (inject_Z z).

Definition num_test (r : Row) (f : Attr) (p : Q -> bool) : option bool :=
  match row_get r f with
  | VNum q => Some (p q)
  | VNull => None
  | VText _ => Some false
  end.

Definition text_test (r : Row) (f : Attr) (p : string -> bool) : option bool :=
  match row_get r f with
  | VText t => Some (p (str_lower t))
  | VNull => None
  | VNum _ => Some false
  end.

Definition occurs (needle hay : string) : bool :=
  match String.index 0 needle hay with
  | Some _ => true
  | None => false
  end.

Definition sample_holds (a : Atom) (r : Row) : option bool :=
  match a with
  | LowerEq f (PyLower s) => text_test r f (String.eqb (str_lower s))
  | IStartsWith f s => text_test r f (String.prefix (str_lower s))
  | IContains f s => text_test r f (occurs (str_lower s))
  | In_ f vs => num_test r f (fun q => existsb (fun z => Qeq_bool q (inject_Z z)) vs)
  | NumEq f x => num_test r f (fun q => Qeq_bool q x)
  | NumLt f x => num_test r f (fun q => negb (Qle_bool x q))
  | NumLe f x => num_test r f (fun q => Qle_bool q x)
  | NumGt f x => num_test r f (fun q => negb (Qle_bool q x))
  | NumGe f x => num_test r f (fun q => Qle_bool x q)
  | CodeEq f c => num_test r f (fun q => Qeq_bool q (inject_Z c))
  | Spatial _ _ _ => Some true
  end.

Definition county (code feature_id : Z) (name : string) : Row :=
  [("counties.code", VInt code); ("counties.feature_id", VInt feature_id);
   ("counties.name", VText name)].

Definition address (code : Z) (plot : string) : Row :=
  [("addresses.code", VInt code);
   ("addresses.plot_or_building_number", VText plot)].

Definition room (code : Z) (number : string) : Row :=
  [("rooms.code", VInt code); ("rooms.room_number", VText number)].

Definition parcel (unique_number : Z) (cadastral : string) : Row :=
  [("parcels.unique_number", VInt unique_number);
   ("parcels.cadastral_number", VText cadastral)].

Definition sample_rows (table : string) : list Row :=
  if String.eqb table "counties"
  then [county 10 1 "Vilniaus apskritis"; county 2 2 "Kauno apskritis"]
  else if String.eqb table "addresses"
  then [address 1 "2"; address 2 "10"; address 3 "1A"; address 4 "101"]
  else if String.eqb table "rooms"
  then [room 1 "101A"; room 2 "2"]
  else if String.eqb table "parcels"
  then [parcel 44 "0101/0001:1"; parcel 55 "0101/0001:2"]
  else [].

(** The engine accepts EWKT that starts with an SRID and fails to execute
    the validity check on anything else. *)
Definition sample_is_valid (g : GeomExpr) : result (option Z) :=
  match g with
  | ST_Transform (GeomFrom ST_GeomFromEWKT raw) _ =>
      if String.prefix "SRID=" raw then Ok (Some 1)
      else Raise (OperationalError "parse error")
  | _ => Ok (Some 0)
  end.

Definition db : Session :=
  mkSession sample_is_valid sample_rows sample_holds numeric_prefix.

Definition no_filter : SearchFilterRequest :=
  mkSearchFilterRequest None None None None None None None None.

Definition counties_group (g : GeneralBoundariesFilter) : SearchFilterRequest :=
  mkSearchFilterRequest None (Some g) None None None None None None.

Definition geometry_group (g : GeometryFilter) : SearchFilterRequest :=
  mkSearchFilterRequest (Some g) None None None None None None None.

Definition first_page : Params := mkParams 1 50.

End Sample.

(** ** Vocabulary of the statements *)

(** An optional number that is supplied and is not zero. *)
Definition supplied_nonzero (x : option Q) (q : Q) : Prop :=
  x = Some q /\ ~ (q == 0)%Q.

Definition absent_or_zero (x : option Q) : Prop :=
  x = None \/ exists q, x = Some q /\ (q == 0)%Q.

(** The bounds of a number filter are applied in a list of predicates on a
    field: the list is an upper part followed by a lower part; the upper part
    is [< lt] when [lt] counts, else [<= lte] when [lte] counts, else empty;
    the lower part is [> gt] when [gt] counts, else [>= gte] when [gte]
    counts, else empty. *)
Definition bounds_applied (nf : NumberFilter) (f : Attr) (out : list Clause)
    : Prop :=
  exists upper lower,
    out = upper ++ lower
    /\ (forall x, supplied_nonzero (nf_lt nf) x -> upper = [Pred (NumLt f x)])
    /\ (absent_or_zero (nf_lt nf) ->
        forall x, supplied_nonzero (nf_lte nf) x -> upper = [Pred (NumLe f x)])
    /\ (absent_or_zero (nf_lt nf) -> absent_or_zero (nf_lte nf) -> upper = [])
    /\ (forall x, supplied_nonzero (nf_gt nf) x -> lower = [Pred (NumGt f x)])
    /\ (absent_or_zero (nf_gt nf) ->
        forall x, supplied_nonzero (nf_gte nf) x -> lower = [Pred (NumGe f x)])
    /\ (absent_or_zero (nf_gt nf) -> absent_or_zero (nf_gte nf) -> lower = []).

(** An optional string that is supplied and is not empty. *)
Definition supplied_nonempty (x : option string) (s : string) : Prop :=
  x = Some s /\ s <> "".

Definition absent_or_empty (x : option string) : Prop :=
  x = None \/ x = Some "".

Definition is_geometry_label (c : ColumnExpr) : bool :=
  match c with
  | GeometryLabel _ _ _ => true
  | _ => false
  end.

(** The projection of a query carries a geometry column. *)
Definition has_geometry (q : Select) : bool :=
  existsb is_geometry_label (sel_columns q).

Definition output_type (fmt : GeometryOutputFormat) : GeometryOutputType :=
  match fmt with
  | fmt_ewkt => EWKTGeometry
  | fmt_ewkb => Geometry_
  end.

(** A yielded predicate that the engine finds TRUE on a row. *)
Definition satisfied (db : Session) (r : Row) (c : Clause) : Prop :=
  exists a, c = Pred a /\ holds db a r = Some true.

Definition nonempty {A : Type} (l : list A) : bool :=
  match l with
  | [] => false
  | _ :: _ => true
  end.

(** Draining the filter over every group, in order. *)
Fixpoint materialize
    (boundaries_filter : SearchFilterRequest -> Session -> result (list Clause))
    (db : Session) (fs : list SearchFilterRequest)
    : result (list (list Clause)) :=
  match fs with
  | [] => Ok []
  | g :: fs' =>
      ps <- boundaries_filter g db ;;
      pss <- materialize boundaries_filter db fs' ;;
      Ok (ps :: pss)
  end.

(** The clause the specification describes: OR over the groups with a
    non-empty predicate list of the AND of that list. *)
Definition or_of_ands (pss : list (list Clause)) : Clause :=
  or_ (map and_ (filter nonempty pss)).

(** The three input encodings of a geometry filter. *)
Inductive Encoding : Type := enc_ewkb | enc_ewkt | enc_geojson.

Definition encoding_field (enc : Encoding) : string :=
  match enc with
  | enc_ewkb => "ewkb"
  | enc_ewkt => "ewkt"
  | enc_geojson => "geojson"
  end.

Definition encoding_from_func (enc : Encoding) : GeomFromFunc :=
  match enc with
  | enc_ewkb => GeomFromEWKB
  | enc_ewkt => ST_GeomFromEWKT
  | enc_geojson => GeomFromGeoJSON
  end.

(** A geometry filter that supplies one encoding only. *)
Definition geometry_filter_of (m : GeometryFilterMethod) (enc : Encoding)
    (raw : string) : GeometryFilter :=
  match enc with
  | enc_ewkb => mkGeometryFilter m (Some raw) None None
  | enc_ewkt => mkGeometryFilter m None (Some raw) None
  | enc_geojson => mkGeometryFilter m None None (Some raw)
  end.

Definition method_func (m : GeometryFilterMethod) : FilterFunc :=
  match m with
  | intersects => ST_Intersects
  | contains_ => ST_Contains
  end.

(** The validity check fails: the engine answers something other than 1,
    or the execution of the check raises [OperationalError]. *)
Definition check_fails (db : Session) (geom : GeomExpr) : Prop :=
  (exists v, scalar_ST_IsValid db geom = Ok v /\ v <> Some 1)
  \/ (exists msg, scalar_ST_IsValid db geom = Raise (OperationalError msg)).

(** The stored geometry a service projects: rooms have none of their own. *)
Definition geometry_source (self : Service) : Attr :=
  match self with
  | RoomsService => col models.Addresses "geom"
  | _ => col (model_class self) "geom"
  end.

(** The sort terms [search] builds. *)
Definition is_natural_field (sort_by_field : string) : bool :=
  String.eqb sort_by_field "room_number"
  || String.eqb sort_by_field "plot_or_building_number".

Definition sort_by_term (sort_order : SearchSortOrder) (sort_attr : Attr)
    : OrderTerm :=
  let e := if is_String (a_type sort_attr)
           then OCollate sort_attr "NOCASE" else OAttr sort_attr in
  if is_desc sort_order then Desc e else Bare e.

Definition natural_term (sort_order : SearchSortOrder) (sort_attr : Attr)
    : OrderTerm :=
  if is_desc sort_order then Desc (OMul sort_attr 1) else Asc (OMul sort_attr 1).

Definition code_term (self : Service) : OrderTerm :=
  Asc (OAttr (col (model_class self) "code")).

(** The value a row is naturally sorted by: the field times one. *)
Definition natural_key (db : Session) (sort_attr : Attr) (r : Row) : value :=
  order_value db (OMul sort_attr 1) r.

Definition value_le (v w : value) : Prop := value_compare v w <> Gt.

Definition in_direction (sort_order : SearchSortOrder) (v w : value) : Prop :=
  match sort_order with
  | asc => value_le v w
  | desc => value_le w v
  end.

Definition Q_eq_dec (p q : Q) : {p = q} + {p <> q}.
Proof. decide equality; [apply Pos.eq_dec | apply Z.eq_dec]. Defined.

Definition value_eq_dec (v w : value) : {v = w} + {v <> w}.
Proof. decide equality; [apply Q_eq_dec | apply string_dec]. Defined.

Definition Row_eq_dec (r1 r2 : Row) : {r1 = r2} + {r1 <> r2}.
Proof.
  apply list_eq_dec. intros [k v] [k' v'].
  destruct (string_dec k k') as [->|Hk]; [|right; congruence].
  destruct (value_eq_dec v v') as [->|Hv]; [left | right]; congruence.
Defined.

(** ** filters.py: the parcel filter

    [ParcelsFilter(MunicipalitiesFilter, PurposeTypesFilter,
    StatusTypesFilter)]: for an instance of it the method resolution order is
    ParcelsFilter, MunicipalitiesFilter, CountiesFilter, PurposeTypesFilter,
    StatusTypesFilter, BaseFilter, and each [super().apply] goes to the next
    class of that order. *)

Record PurposeTypeFilterSchema : Type := mkPurposeTypeFilterSchema {
  pt_purpose_ids : option (list Z);
  pt_name : option StringFilter;
  pt_full_name : option StringFilter;
  pt_full_name_en : option StringFilter
}.

Record StatusTypesFilterSchema : Type := mkStatusTypesFilterSchema {
  stt_status_ids : option (list Z);
  stt_name : option StringFilter;
  stt_name_en : option StringFilter;
  stt_full_name : option StringFilter;
  stt_full_name_en : option StringFilter
}.

(** [ParcelSearchFilterRequest]; its [purpose_groups] field is read by no
    filter. *)
Record ParcelSearchFilterRequest : Type := mkParcelSearchFilterRequest {
  p_geometry : option GeometryFilter;
  p_counties : option GeneralBoundariesFilter;
  p_municipalities : option GeneralBoundariesFilter;
  p_purposes : option PurposeTypeFilterSchema;
  p_statuses : option StatusTypesFilterSchema;
  p_parcels : option ParcelsFilterSchema
}.

(** [_apply_geometry_filter] for a given [self.Meta.geom_field]. *)
Definition apply_geometry_filter_on (meta_geom_field : option Attr)
    (geometry_filter : GeometryFilter) (db : Session) : result (list Clause) :=
  filter_func_type <- _get_filter_func (gf_method geometry_filter) ;;
  geom_field <- match meta_geom_field with
                | Some g => Ok g
                | None => Raise (ValueError "geom_field in meta is not defined")
                end ;;
  (match truthy_str (gf_ewkb geometry_filter) with
   | Some ewkb =>
       _filter_by_geometry db ewkb "ewkb" geom_field filter_func_type GeomFromEWKB
   | None => Ok []
   end)
  +++
  (match truthy_str (gf_ewkt geometry_filter) with
   | Some ewkt =>
       _filter_by_geometry db ewkt "ewkt" geom_field filter_func_type
         ST_GeomFromEWKT
   | None => Ok []
   end)
  +++
  (match truthy_str (gf_geojson geometry_filter) with
   | Some geojson =>
       _filter_by_geometry db geojson "geojson" geom_field filter_func_type
         GeomFromGeoJSON
   | None => Ok []
   end).

Definition _apply_status_filters (status_filter : StatusTypesFilterSchema)
    : result (list Clause) :=
  when_set (truthy_list (stt_status_ids status_filter))
    (fun status_ids =>
       Ok [Pred (In_ (col models.StatusTypes "status_id") status_ids)])
  +++
  when_set (stt_name status_filter)
    (fun sf => Ok (_filter_by_string_field sf (col models.StatusTypes "name")))
  +++
  when_set (stt_name_en status_filter)
    (fun sf => Ok (_filter_by_string_field sf
                     (col models.StatusTypes "name_en")))
  +++
  when_set (stt_full_name status_filter)
    (fun sf => Ok (_filter_by_string_field sf
                     (col models.StatusTypes "full_name")))
  +++
  when_set (stt_full_name_en status_filter)
    (fun sf => Ok (_filter_by_string_field sf
                     (col models.StatusTypes "full_name_en"))).

(** [purpose_filter.purpose_group]: [schemas.PurposeTypeFilter] declares
    [purpose_ids], [name], [full_name] and [full_name_en] only, so reading
    this attribute raises and gives no value. *)
Definition PurposeTypeFilter_purpose_group (purpose_filter : PurposeTypeFilterSchema)
    : result Empty_set :=
  Raise (AttributeError
    "'PurposeTypeFilter' object has no attribute 'purpose_group'").

Definition _apply_purposes_filters (purpose_filter : PurposeTypeFilterSchema)
    : result (list Clause) :=
  when_set (truthy_list (pt_purpose_ids purpose_filter))
    (fun purpose_ids =>
       Ok [Pred (In_ (col models.PurposeTypes "purpose_id") purpose_ids)])
  +++
  (purpose_group <- PurposeTypeFilter_purpose_group purpose_filter ;;
   match purpose_group return result (list Clause) with end)
  +++
  when_set (pt_name purpose_filter)
    (fun sf => Ok (_filter_by_string_field sf (col models.PurposeTypes "name")))
  +++
  when_set (pt_full_name purpose_filter)
    (fun sf => Ok (_filter_by_string_field sf
                     (col models.PurposeTypes "full_name")))
  +++
  when_set (pt_full_name_en purpose_filter)
    (fun sf => Ok (_filter_by_string_field sf
                     (col models.PurposeTypes "full_name_en"))).

(** [ParcelsFilter.Meta.geom_field] *)
Definition ParcelsFilter_geom_field : option Attr :=
  Some (col models.Parcels "geom").

(** [BaseFilter.apply], reached last. *)
Definition ParcelsFilter_base (search_filter : ParcelSearchFilterRequest)
    (db : Session) : result (list Clause) :=
  when_set (p_geometry search_filter)
    (fun geometry_filter =>
       apply_geometry_filter_on ParcelsFilter_geom_field geometry_filter db).

(** [StatusTypesFilter.apply] *)
Definition ParcelsFilter_statuses (search_filter : ParcelSearchFilterRequest)
    (db : Session) : result (list Clause) :=
  ParcelsFilter_base search_filter db
  +++
  when_set (p_statuses search_filter) _apply_status_filters.

(** [PurposeTypesFilter.apply] *)
Definition ParcelsFilter_purposes (search_filter : ParcelSearchFilterRequest)
    (db : Session) : result (list Clause) :=
  ParcelsFilter_statuses search_filter db
  +++
  when_set (p_purposes search_filter) _apply_purposes_filters.

(** [CountiesFilter.apply] *)
Definition ParcelsFilter_counties (search_filter : ParcelSearchFilterRequest)
    (db : Session) : result (list Clause) :=
  ParcelsFilter_purposes search_filter db
  +++
  when_set (p_counties search_filter)
    (fun counties_filter =>
       _apply_general_boundaries_filter counties_filter models.Counties).

(** [MunicipalitiesFilter.apply] *)
Definition ParcelsFilter_municipalities
    (search_filter : ParcelSearchFilterRequest) (db : Session)
    : result (list Clause) :=
  ParcelsFilter_counties search_filter db
  +++
  when_set (p_municipalities search_filter)
    (fun municipalities_filter =>
       _apply_general_boundaries_filter municipalities_filter
         models.Municipalities).

(** [ParcelsFilter.apply] *)
Definition ParcelsFilter_apply (search_filter : ParcelSearchFilterRequest)
    (db : Session) : result (list Clause) :=
  ParcelsFilter_municipalities search_filter db
  +++
  when_set (p_parcels search_filter) _apply_parcels_filters.

(** ** Vocabulary of the further statements *)

(** The encodings a geometry filter supplies (non-empty), in the order the
    code visits them. *)
Definition supplied_encodings (gf : GeometryFilter)
    : list (Encoding * string) :=
  (match truthy_str (gf_ewkb gf) with
   | Some raw => [(enc_ewkb, raw)]
   | None => []
   end)
  ++ (match truthy_str (gf_ewkt gf) with
      | Some raw => [(enc_ewkt, raw)]
      | None => []
      end)
  ++ (match truthy_str (gf_geojson gf) with
      | Some raw => [(enc_geojson, raw)]
      | None => []
      end).

(** The geometry the validity check and the predicate are given. *)
Definition filter_geometry (er : Encoding * string) : GeomExpr :=
  ST_Transform (GeomFrom (encoding_from_func (fst er)) (snd er)) 3346.

Definition check_passes (db : Session) (er : Encoding * string) : Prop :=
  scalar_ST_IsValid db (filter_geometry er) = Ok (Some 1).

Definition spatial_predicate (m : GeometryFilterMethod) (g : Attr)
    (er : Encoding * string) : Clause :=
  Pred (Spatial (method_func m) (filter_geometry er) g).

Definition is_operational (e : exn) : bool :=
  match e with
  | OperationalError _ => true
  | _ => false
  end.

(** The predicates of a general boundaries filter on a model. *)
Definition general_predicates (g : GeneralBoundariesFilter) (m : ModelClass)
    : list Clause :=
  (match gb_name g with
   | Some name => _filter_by_string_field name (col m "name")
   | None => []
   end)
  ++ (match truthy_list (gb_feature_ids g) with
      | Some feature_ids => [Pred (In_ (col m "feature_id") feature_ids)]
      | None => []
      end)
  ++ (match truthy_list (gb_codes g) with
      | Some codes => [Pred (In_ (col m "code") codes)]
      | None => []
      end).

Definition is_boundary_model (m : ModelClass) : Prop :=
  In m [models.Counties; models.Municipalities; models.Elderships;
        models.ResidentialAreas; models.Streets].

(** Well-formed yielded predicates: atoms, and IN lists are not empty. *)
Definition well_formed_predicate (c : Clause) : Prop :=
  match c with
  | Pred (In_ _ vs) => vs <> []
  | Pred _ => True
  | _ => False
  end.

(** The tables whose columns a filter class constrains. *)
Definition filter_tables (self : FilterClass) : list string :=
  match self with
  | CountiesFilter => ["counties"]
  | MunicipalitiesFilter => ["counties"; "municipalities"]
  | EldershipsFilter => ["counties"; "municipalities"; "elderships"]
  | ResidentialAreasFilter =>
      ["counties"; "municipalities"; "residential_areas"]
  | StreetsFilter =>
      ["counties"; "municipalities"; "residential_areas"; "streets"]
  | AddressesFilter =>
      ["counties"; "municipalities"; "residential_areas"; "streets";
       "addresses"]
  | RoomsFilter =>
      ["counties"; "municipalities"; "residential_areas"; "streets";
       "addresses"; "rooms"]
  end.

Definition atom_attr (a : Atom) : Attr :=
  match a with
  | LowerEq f _ | IStartsWith f _ | IContains f _ | In_ f _ | NumEq f _
  | NumLt f _ | NumLe f _ | NumGt f _ | NumGe f _ | CodeEq f _
  | Spatial _ _ f => f
  end.

Definition clause_on_tables (ts : list string) (c : Clause) : Prop :=
  match c with
  | Pred a => In (a_table (atom_attr a)) ts
  | _ => False
  end.

(** The key of the first ORDER BY term of a search on a field that is not
    naturally sorted. *)
Definition sort_key (db : Session) (sort_attr : Attr) (r : Row) : value :=
  order_value db
    (if is_String (a_type sort_attr)
     then OCollate sort_attr "NOCASE" else OAttr sort_attr) r.

Definition code_matches (db : Session) (self : Service) (code : Z) (r : Row)
    : bool :=
  is_true3 (holds db (CodeEq (col (model_class self) "code") code) r).

(** Validating the supplied encodings one after the other. *)
Definition validate_each (db : Session) (g : Attr) (m : GeometryFilterMethod)
    (l : list (Encoding * string)) : result (list Clause) :=
  fold_right
    (fun er acc =>
       _filter_by_geometry db (snd er) (encoding_field (fst er)) g
         (method_func m) (encoding_from_func (fst er)) +++ acc)
    (Ok []) l.

Definition opt_general (x : option GeneralBoundariesFilter) (m : ModelClass)
    : list Clause :=
  match x with
  | Some g => general_predicates g m
  | None => []
  end.

Definition opt_string (x : option StringFilter) (f : Attr) : list Clause :=
  match x with
  | Some sf => _filter_by_string_field sf f
  | None => []
  end.

Definition opt_in (x : option (list Z)) (f : Attr) : list Clause :=
  match truthy_list x with
  | Some vs => [Pred (In_ f vs)]
  | None => []
  end.

Definition streets_predicates (sf : SearchFilterRequest) : list Clause :=
  match streets sf with
  | Some s =>
      general_predicates (st_general s) models.Streets
      ++ opt_string (st_full_name s) (col models.Streets "full_name")
  | None => []
  end.

Definition addresses_predicates (sf : SearchFilterRequest) : list Clause :=
  match addresses sf with
  | Some a =>
      opt_string (ad_building_block_number a)
        (col models.Addresses "building_block_number")
      ++ opt_string (ad_plot_or_building_number a)
           (col models.Addresses "plot_or_building_number")
      ++ opt_string (ad_postal_code a) (col models.Addresses "postal_code")
      ++ opt_in (ad_feature_ids a) (col models.Addresses "feature_id")
      ++ opt_in (ad_codes a) (col models.Addresses "code")
  | None => []
  end.

Definition rooms_predicates (sf : SearchFilterRequest) : list Clause :=
  match rooms sf with
  | Some r =>
      opt_string (rm_room_number r) (col models.Rooms "room_number")
      ++ opt_in (rm_codes r) (col models.Rooms "code")
  | None => []
  end.

(** The predicates a filter class yields after the geometry ones. *)
Definition attribute_predicates (self : FilterClass) (sf : SearchFilterRequest)
    : list Clause :=
  let c := opt_general (counties sf) models.Counties in
  let m := opt_general (municipalities sf) models.Municipalities in
  let e := opt_general (elderships sf) models.Elderships in
  let ra := opt_general (residential_areas sf) models.ResidentialAreas in
  match self with
  | CountiesFilter => c
  | MunicipalitiesFilter => c ++ m
  | EldershipsFilter => (c ++ m) ++ e
  | ResidentialAreasFilter => (c ++ m) ++ ra
  | StreetsFilter => ((c ++ m) ++ ra) ++ streets_predicates sf
  | AddressesFilter =>
      (((c ++ m) ++ ra) ++ streets_predicates sf) ++ addresses_predicates sf
  | RoomsFilter =>
      ((((c ++ m) ++ ra) ++ streets_predicates sf) ++ addresses_predicates sf)
      ++ rooms_predicates sf
  end.

Definition status_predicates (x : option StatusTypesFilterSchema)
    : list Clause :=
  match x with
  | Some st =>
      opt_in (stt_status_ids st) (col models.StatusTypes "status_id")
      ++ opt_string (stt_name st) (col models.StatusTypes "name")
      ++ opt_string (stt_name_en st) (col models.StatusTypes "name_en")
      ++ opt_string (stt_full_name st) (col models.StatusTypes "full_name")
      ++ opt_string (stt_full_name_en st)
           (col models.StatusTypes "full_name_en")
  | None => []
  end.

Definition parcels_predicates (x : option ParcelsFilterSchema) : list Clause :=
  match x with
  | Some pc =>
      opt_string (pc_cadastral_number pc)
        (col models.Parcels "cadastral_number")
      ++ opt_in (pc_unique_numbers pc) (col models.Parcels "unique_number")
      ++ (match pc_area_ha pc with
          | Some nf => _filter_by_number_field nf (col models.Parcels "area_ha")
          | None => []
          end)
  | None => []
  end.

(** A data store whose connection is lost: every validity check raises. *)
Definition broken_db : Session :=
  mkSession (fun _ => Raise (DatabaseError "connection lost"))
    Sample.sample_rows Sample.sample_holds Sample.numeric_prefix.

(** * Properties *)

(** ** The error monad *)

Lemma bind_Ok_inv {A B : Type} (m : result A) (k : A -> result B) (b : B) :
  bind m k = Ok b -> exists a, m = Ok a /\ k a = Ok b.
Proof.
  destruct m as [a|e]; simpl; intros H; [exists a; auto | discriminate].
Qed.

Ltac inv_bind H x Hx :=
  apply bind_Ok_inv in H; destruct H as (x & Hx & H).

(** ** Sorting rows *)

Section SortRows.

Variable leb : Row -> Row -> bool.

Lemma insert_row_perm (r : Row) (l : list Row) :
  Permutation (insert_row leb r l) (r :: l).
Proof.
  induction l as [|x l IH]; simpl.
  - apply Permutation_refl.
  - destruct (leb r x).
    + apply Permutation_refl.
    + eapply Permutation_trans; [apply perm_skip, IH | apply perm_swap].
Qed.

Lemma sort_rows_perm (l : list Row) : Permutation (sort_rows leb l) l.
Proof.
  induction l as [|x l IH]; simpl.
  - constructor.
  - eapply Permutation_trans; [apply insert_row_perm | apply perm_skip, IH].
Qed.

Lemma sort_rows_In (r : Row) (l : list Row) :
  In r (sort_rows leb l) <-> In r l.
Proof.
  split; apply Permutation_in;
    [apply sort_rows_perm | apply Permutation_sym, sort_rows_perm].
Qed.

Lemma sort_rows_NoDup (l : list Row) : NoDup l -> NoDup (sort_rows leb l).
Proof.
  apply Permutation_NoDup, Permutation_sym, sort_rows_perm.
Qed.

Lemma sort_rows_length (l : list Row) :
  List.length (sort_rows leb l) = List.length l.
Proof. apply Permutation_length, sort_rows_perm. Qed.

Hypothesis leb_total : forall a b, leb a b = false -> leb b a = true.

Lemma insert_row_HdRel (a r : Row) (l : list Row) :
  leb a r = true ->
  HdRel (fun x y => leb x y = true) a l ->
  HdRel (fun x y => leb x y = true) a (insert_row leb r l).
Proof.
  intros Har Hl. destruct l as [|x l]; simpl.
  - constructor; assumption.
  - destruct (leb r x); constructor; [assumption|].
    inversion Hl; assumption.
Qed.

Lemma insert_row_sorted (r : Row) (l : list Row) :
  Sorted (fun x y => leb x y = true) l ->
  Sorted (fun x y => leb x y = true) (insert_row leb r l).
Proof.
  induction l as [|x l IH]; simpl; intros Hs.
  - repeat constructor.
  - destruct (leb r x) eqn:E.
    + constructor; [assumption | constructor; assumption].
    + inversion Hs as [|? ? Hs' Hhd]; subst.
      constructor; [apply IH; assumption|].
      apply insert_row_HdRel; [apply leb_total; assumption | assumption].
Qed.

Lemma sort_rows_sorted (l : list Row) :
  Sorted (fun x y => leb x y = true) (sort_rows leb l).
Proof.
  induction l as [|x l IH]; simpl.
  - constructor.
  - apply insert_row_sorted, IH.
Qed.

End SortRows.

Lemma sort_rows_always_le (leb : Row -> Row -> bool) (l : list Row) :
  (forall a b, leb a b = true) -> sort_rows leb l = l.
Proof.
  intros H. induction l as [|x l IH]; simpl; [reflexivity|].
  rewrite IH. destruct l as [|y l]; simpl; [reflexivity|].
  rewrite H. reflexivity.
Qed.

Lemma Sorted_weaken (R S : Row -> Row -> Prop) (l : list Row) :
  (forall a b, R a b -> S a b) -> Sorted R l -> Sorted S l.
Proof.
  intros HRS. induction 1 as [|a l Hs IH Hhd]; constructor.
  - assumption.
  - destruct Hhd; constructor; auto.
Qed.

(** ** The order of rows *)

Lemma value_compare_antisym (v w : value) :
  value_compare w v = CompOpp (value_compare v w).
Proof.
  destruct v, w; simpl; try reflexivity.
  - symmetry. apply Qcompare_antisym.
  - apply String.compare_antisym.
Qed.

Lemma term_compare_antisym (db : Session) (t : OrderTerm) (r1 r2 : Row) :
  term_compare db t r2 r1 = CompOpp (term_compare db t r1 r2).
Proof.
  destruct t; simpl; try apply value_compare_antisym.
  f_equal. apply value_compare_antisym.
Qed.

Lemma rows_compare_antisym (db : Session) (ts : list OrderTerm) (r1 r2 : Row) :
  rows_compare db ts r2 r1 = CompOpp (rows_compare db ts r1 r2).
Proof.
  induction ts as [|t ts IH]; simpl; [reflexivity|].
  rewrite (term_compare_antisym db t r1 r2).
  destruct (term_compare db t r1 r2); simpl; auto.
Qed.

Lemma rows_leb_total (db : Session) (ts : list OrderTerm) (r1 r2 : Row) :
  rows_leb db ts r1 r2 = false -> rows_leb db ts r2 r1 = true.
Proof.
  unfold rows_leb. rewrite (rows_compare_antisym db ts r1 r2).
  destruct (rows_compare db ts r1 r2); simpl; congruence.
Qed.

(** Rows come back in the order the ORDER BY terms ask for. *)
Lemma execute_sorted (db : Session) (q : Select) :
  Sorted (fun r1 r2 => rows_leb db (sel_order_by q) r1 r2 = true)
    (execute db q).
Proof. apply sort_rows_sorted, rows_leb_total. Qed.

Lemma execute_In (db : Session) (q : Select) (r : Row) :
  In r (execute db q) <->
  In r (table_rows db (tablename (sel_from q))) /\
  where_holds db (sel_where q) r = true.
Proof.
  unfold execute. rewrite sort_rows_In, filter_In. reflexivity.
Qed.

Lemma execute_NoDup (db : Session) (q : Select) :
  NoDup (table_rows db (tablename (sel_from q))) -> NoDup (execute db q).
Proof.
  intros H. apply sort_rows_NoDup, NoDup_filter, H.
Qed.

(** ** The predicate builders *)

Lemma truthy_num_Some (x : option Q) (q : Q) :
  supplied_nonzero x q -> truthy_num x = Some q.
Proof.
  intros [-> Hq]. simpl. destruct (Qeq_bool q 0) eqn:E; [|reflexivity].
  apply Qeq_bool_iff in E. contradiction.
Qed.

Lemma truthy_num_None (x : option Q) :
  absent_or_zero x -> truthy_num x = None.
Proof.
  intros [-> | (q & -> & Hq)]; simpl; [reflexivity|].
  apply Qeq_bool_iff in Hq. rewrite Hq. reflexivity.
Qed.

Lemma truthy_str_Some (x : option string) (s : string) :
  supplied_nonempty x s -> truthy_str x = Some s.
Proof.
  intros [-> Hs]. destruct s; [contradiction | reflexivity].
Qed.

Lemma truthy_str_None (x : option string) :
  absent_or_empty x -> truthy_str x = None.
Proof. intros [-> | ->]; reflexivity. Qed.

(** C3, as the code has it.  A bound counts only when it is supplied and
    non-zero.  With such an [eq] the equality predicate is the only one
    yielded.  Otherwise the upper bound is [lt] if it counts, else [lte] if
    it counts, and independently the lower bound is [gt] if it counts, else
    [gte] if it counts. *)
Theorem number_filter_eq_then_bounds (nf : NumberFilter) (f : Attr) :
  (forall e, supplied_nonzero (nf_eq nf) e ->
     _filter_by_number_field nf f = [Pred (NumEq f e)])
  /\
  (absent_or_zero (nf_eq nf) ->
   exists upper lower,
     _filter_by_number_field nf f = upper ++ lower
     /\ (forall x, supplied_nonzero (nf_lt nf) x -> upper = [Pred (NumLt f x)])
     /\ (absent_or_zero (nf_lt nf) ->
         forall x, supplied_nonzero (nf_lte nf) x -> upper = [Pred (NumLe f x)])
     /\ (absent_or_zero (nf_lt nf) -> absent_or_zero (nf_lte nf) -> upper = [])
     /\ (forall x, supplied_nonzero (nf_gt nf) x -> lower = [Pred (NumGt f x)])
     /\ (absent_or_zero (nf_gt nf) ->
         forall x, supplied_nonzero (nf_gte nf) x -> lower = [Pred (NumGe f x)])
     /\ (absent_or_zero (nf_gt nf) -> absent_or_zero (nf_gte nf) -> lower = [])).
Proof.
  unfold _filter_by_number_field. split.
  - intros e He. rewrite (truthy_num_Some He). reflexivity.
  - intros Heq. rewrite (truthy_num_None Heq).
    eexists _, _. split; [reflexivity|].
    repeat split.
    + intros x Hx. rewrite (truthy_num_Some Hx). reflexivity.
    + intros Hlt x Hx.
      rewrite (truthy_num_None Hlt), (truthy_num_Some Hx). reflexivity.
    + intros Hlt Hlte.
      rewrite (truthy_num_None Hlt), (truthy_num_None Hlte). reflexivity.
    + intros x Hx. rewrite (truthy_num_Some Hx). reflexivity.
    + intros Hgt x Hx.
      rewrite (truthy_num_None Hgt), (truthy_num_Some Hx). reflexivity.
    + intros Hgt Hgte.
      rewrite (truthy_num_None Hgt), (truthy_num_None Hgte). reflexivity.
Qed.

(** [{eq: 5, lt: 1}] asks for equality with 5 only. *)
Lemma number_filter_eq_then_bounds_witness :
  _filter_by_number_field
    (mkNumberFilter (Some 5%Q) None None (Some 1%Q) None)
    (col models.Parcels "area_ha")
  = [Pred (NumEq (col models.Parcels "area_ha") 5%Q)].
Proof.
  apply (proj1 (number_filter_eq_then_bounds
                  (mkNumberFilter (Some 5%Q) None None (Some 1%Q) None)
                  (col models.Parcels "area_ha"))).
  split; [reflexivity | discriminate].
Defined.

(** [{lt: 10, lte: 5}] behaves as [< 10]. *)
Example number_filter_lt_wins :
  _filter_by_number_field
    (mkNumberFilter None None None (Some 10%Q) (Some 5%Q))
    (col models.Parcels "area_ha")
  = [Pred (NumLt (col models.Parcels "area_ha") 10%Q)].
Proof. reflexivity. Qed.

(** C3 as written fails for [{eq: 0, lt: 5}]: [eq] is supplied, yet the
    predicate yielded is the upper bound, not the equality. *)
Lemma number_filter_eq_zero_counterexample :
  let nf := mkNumberFilter (Some 0%Q) None None (Some 5%Q) None in
  let f := col models.Parcels "area_ha" in
  nf_eq nf = Some 0%Q
  /\ _filter_by_number_field nf f = [Pred (NumLt f 5%Q)]
  /\ _filter_by_number_field nf f <> [Pred (NumEq f 0%Q)].
Proof.
  simpl. repeat split. discriminate.
Qed.

Lemma bounds_have_no_equality (nf : NumberFilter) (f : Attr) (x : Q) :
  truthy_num (nf_eq nf) = None ->
  ~ In (Pred (NumEq f x)) (_filter_by_number_field nf f).
Proof.
  unfold _filter_by_number_field. intros ->. rewrite in_app_iff.
  destruct (truthy_num (nf_lt nf)), (truthy_num (nf_lte nf)),
    (truthy_num (nf_gt nf)), (truthy_num (nf_gte nf)); simpl;
    intuition discriminate.
Qed.

Lemma number_filter_bounds_applied (nf : NumberFilter) (f : Attr) :
  absent_or_zero (nf_eq nf) ->
  bounds_applied nf f (_filter_by_number_field nf f).
Proof.
  intros Heq. unfold bounds_applied, _filter_by_number_field.
  rewrite (truthy_num_None Heq).
  eexists _, _. split; [reflexivity|].
  split; [|split; [|split; [|split; [|split]]]].
  - intros x Hx. rewrite (truthy_num_Some Hx). reflexivity.
  - intros Hlt x Hx.
    rewrite (truthy_num_None Hlt), (truthy_num_Some Hx). reflexivity.
  - intros Hlt Hlte.
    rewrite (truthy_num_None Hlt), (truthy_num_None Hlte). reflexivity.
  - intros x Hx. rewrite (truthy_num_Some Hx). reflexivity.
  - intros Hgt x Hx.
    rewrite (truthy_num_None Hgt), (truthy_num_Some Hx). reflexivity.
  - intros Hgt Hgte.
    rewrite (truthy_num_None Hgt), (truthy_num_None Hgte). reflexivity.
Qed.

Ltac no_such_bound :=
  unfold _filter_by_number_field;
  match goal with
  | H : truthy_num _ = None |- _ => rewrite H
  end;
  repeat match goal with
         | |- context [truthy_num ?x] => destruct (truthy_num x)
         end;
  simpl; rewrite ?in_app_iff; simpl; intuition discriminate.

Lemma zero_gt_not_applied (nf : NumberFilter) (f : Attr) (x : Q) :
  truthy_num (nf_gt nf) = None ->
  ~ In (Pred (NumGt f x)) (_filter_by_number_field nf f).
Proof. intros H. no_such_bound. Qed.

Lemma zero_gte_not_applied (nf : NumberFilter) (f : Attr) (x : Q) :
  truthy_num (nf_gte nf) = None ->
  ~ In (Pred (NumGe f x)) (_filter_by_number_field nf f).
Proof. intros H. no_such_bound. Qed.

Lemma zero_lt_not_applied (nf : NumberFilter) (f : Attr) (x : Q) :
  truthy_num (nf_lt nf) = None ->
  ~ In (Pred (NumLt f x)) (_filter_by_number_field nf f).
Proof. intros H. no_such_bound. Qed.

Lemma zero_lte_not_applied (nf : NumberFilter) (f : Attr) (x : Q) :
  truthy_num (nf_lte nf) = None ->
  ~ In (Pred (NumLe f x)) (_filter_by_number_field nf f).
Proof. intros H. no_such_bound. Qed.

(** C10.  A zero [eq] yields no equality predicate and is treated as an
    absent [eq]: the predicates yielded are the bounds of the same filter,
    [lt] (else [lte]) and [gt] (else [gte]), each counting when it is
    supplied and non-zero.  A zero bound is treated as an absent bound in
    the same way: it yields no predicate of its own, the filter behaves as
    without it, and when no non-zero [eq] takes over the remaining bounds
    are the ones applied. *)
Theorem number_filter_zero_is_absent (nf : NumberFilter) (f : Attr) (z : Q) :
  (z == 0)%Q ->
  (nf_eq nf = Some z ->
     (forall x, ~ In (Pred (NumEq f x)) (_filter_by_number_field nf f))
     /\ _filter_by_number_field nf f =
        _filter_by_number_field
          (mkNumberFilter None (nf_gt nf) (nf_gte nf) (nf_lt nf) (nf_lte nf)) f
     /\ bounds_applied nf f (_filter_by_number_field nf f))
  /\ (nf_gt nf = Some z ->
      _filter_by_number_field nf f =
      _filter_by_number_field
        (mkNumberFilter (nf_eq nf) None (nf_gte nf) (nf_lt nf) (nf_lte nf)) f
      /\ (forall x, ~ In (Pred (NumGt f x)) (_filter_by_number_field nf f))
      /\ (absent_or_zero (nf_eq nf) ->
          bounds_applied nf f (_filter_by_number_field nf f)))
  /\ (nf_gte nf = Some z ->
      _filter_by_number_field nf f =
      _filter_by_number_field
        (mkNumberFilter (nf_eq nf) (nf_gt nf) None (nf_lt nf) (nf_lte nf)) f
      /\ (forall x, ~ In (Pred (NumGe f x)) (_filter_by_number_field nf f))
      /\ (absent_or_zero (nf_eq nf) ->
          bounds_applied nf f (_filter_by_number_field nf f)))
  /\ (nf_lt nf = Some z ->
      _filter_by_number_field nf f =
      _filter_by_number_field
        (mkNumberFilter (nf_eq nf) (nf_gt nf) (nf_gte nf) None (nf_lte nf)) f
      /\ (forall x, ~ In (Pred (NumLt f x)) (_filter_by_number_field nf f))
      /\ (absent_or_zero (nf_eq nf) ->
          bounds_applied nf f (_filter_by_number_field nf f)))
  /\ (nf_lte nf = Some z ->
      _filter_by_number_field nf f =
      _filter_by_number_field
        (mkNumberFilter (nf_eq nf) (nf_gt nf) (nf_gte nf) (nf_lt nf) None) f
      /\ (forall x, ~ In (Pred (NumLe f x)) (_filter_by_number_field nf f))
      /\ (absent_or_zero (nf_eq nf) ->
          bounds_applied nf f (_filter_by_number_field nf f))).
Proof.
  intros Hz.
  assert (Hnone : forall x, x = Some z -> truthy_num x = None).
  { intros x ->. apply truthy_num_None. right. exists z. auto. }
  split; [|split; [|split; [|split]]]; intros H; pose proof (Hnone _ H) as Ht.
  - split; [|split].
    + intros x. apply bounds_have_no_equality. exact Ht.
    + unfold _filter_by_number_field; simpl. rewrite Ht. reflexivity.
    + apply number_filter_bounds_applied. right. exists z. auto.
  - split; [|split].
    + unfold _filter_by_number_field; simpl. rewrite Ht. reflexivity.
    + intros x. apply zero_gt_not_applied. exact Ht.
    + apply number_filter_bounds_applied.
  - split; [|split].
    + unfold _filter_by_number_field; simpl. rewrite Ht. reflexivity.
    + intros x. apply zero_gte_not_applied. exact Ht.
    + apply number_filter_bounds_applied.
  - split; [|split].
    + unfold _filter_by_number_field; simpl. rewrite Ht. reflexivity.
    + intros x. apply zero_lt_not_applied. exact Ht.
    + apply number_filter_bounds_applied.
  - split; [|split].
    + unfold _filter_by_number_field; simpl. rewrite Ht. reflexivity.
    + intros x. apply zero_lte_not_applied. exact Ht.
    + apply number_filter_bounds_applied.
Qed.

(** [{eq: 0, lt: 5}] yields [< 5] and nothing else. *)
Lemma number_filter_zero_is_absent_witness :
  _filter_by_number_field
    (mkNumberFilter (Some 0%Q) None None (Some 5%Q) None)
    (col models.Parcels "area_ha")
  = [Pred (NumLt (col models.Parcels "area_ha") 5%Q)].
Proof.
  destruct (proj1 (@number_filter_zero_is_absent
                     (mkNumberFilter (Some 0%Q) None None (Some 5%Q) None)
                     (col models.Parcels "area_ha") 0%Q (Qeq_refl 0))
              eq_refl)
    as (_ & _ & upper & lower & Hout & Hlt & _ & _ & _ & _ & Hlower).
  rewrite Hout.
  rewrite (Hlt 5%Q) by (split; [reflexivity | discriminate]).
  rewrite Hlower by (left; reflexivity).
  reflexivity.
Defined.

(** C4, as the code has it.  An option counts only when it is supplied and
    non-empty.  At most one predicate is yielded, on the named field, for
    the first option that counts in the order exact, starts, contains: the
    exact one compares the lower-cased field, [func.lower(field)], with the
    text lower-cased by Python, [exact.lower()]; the other two apply the
    case-insensitive prefix and substring operators, [istartswith] and
    [icontains], to the text as supplied.  When no option counts nothing is
    yielded. *)
Theorem string_filter_precedence (sf : StringFilter) (f : Attr) :
  (List.length (_filter_by_string_field sf f) <= 1)%nat
  /\ (forall s, supplied_nonempty (sf_exact sf) s ->
        _filter_by_string_field sf f = [Pred (LowerEq f (PyLower s))])
  /\ (absent_or_empty (sf_exact sf) ->
      forall s, supplied_nonempty (sf_starts sf) s ->
        _filter_by_string_field sf f = [Pred (IStartsWith f s)])
  /\ (absent_or_empty (sf_exact sf) -> absent_or_empty (sf_starts sf) ->
      forall s, supplied_nonempty (sf_contains sf) s ->
        _filter_by_string_field sf f = [Pred (IContains f s)])
  /\ (absent_or_empty (sf_exact sf) -> absent_or_empty (sf_starts sf) ->
      absent_or_empty (sf_contains sf) ->
        _filter_by_string_field sf f = []).
Proof.
  unfold _filter_by_string_field. split; [|split; [|split; [|split]]].
  - destruct (truthy_str (sf_exact sf)), (truthy_str (sf_starts sf)),
      (truthy_str (sf_contains sf)); simpl; lia.
  - intros s Hs. rewrite (truthy_str_Some Hs). reflexivity.
  - intros He s Hs.
    rewrite (truthy_str_None He), (truthy_str_Some Hs). reflexivity.
  - intros He Hst s Hs.
    rewrite (truthy_str_None He), (truthy_str_None Hst), (truthy_str_Some Hs).
    reflexivity.
  - intros He Hst Hc.
    rewrite (truthy_str_None He), (truthy_str_None Hst), (truthy_str_None Hc).
    reflexivity.
Qed.

(** [{exact: "Kauno", starts: "Vil"}] compares with ["Kauno".lower()]
    only. *)
Lemma string_filter_precedence_witness :
  _filter_by_string_field
    (mkStringFilter None (Some "Kauno") (Some "Vil"))
    (col models.Counties "name")
  = [Pred (LowerEq (col models.Counties "name") (PyLower "Kauno"))].
Proof.
  apply (proj1 (proj2 (string_filter_precedence
                         (mkStringFilter None (Some "Kauno") (Some "Vil"))
                         (col models.Counties "name"))) "Kauno").
  split; [reflexivity | discriminate].
Defined.

(** C4 as written fails for [{exact: "", starts: "vil"}]: [exact] is
    supplied and comes first, yet the prefix predicate is the one yielded. *)
Lemma string_filter_empty_exact_counterexample :
  let sf := mkStringFilter None (Some "") (Some "vil") in
  let f := col models.Counties "name" in
  sf_exact sf = Some ""
  /\ _filter_by_string_field sf f = [Pred (IStartsWith f "vil")]
  /\ _filter_by_string_field sf f <> [Pred (LowerEq f (PyLower ""))].
Proof.
  simpl. repeat split. discriminate.
Qed.

Lemma general_filter_name_only (sf : StringFilter) (m : ModelClass) (f : Attr) :
  hasattr m "name" = true ->
  getattr m "name" = Ok f ->
  _apply_general_boundaries_filter
    (mkGeneralBoundariesFilter None None (Some sf)) m
  = Ok (_filter_by_string_field sf f).
Proof.
  intros Hh Hg. unfold _apply_general_boundaries_filter. simpl.
  rewrite Hh. simpl. rewrite Hg. simpl. rewrite app_nil_r. reflexivity.
Qed.

(** C5, as the code has it.  A string filter whose only option is
    [contains] set to the empty string yields no predicate: the field is
    left unconstrained, and a county group made of this filter alone
    materializes to the empty predicate list. *)
Theorem string_filter_contains_empty (sf : StringFilter) (f : Attr) :
  sf_exact sf = None -> sf_starts sf = None -> sf_contains sf = Some "" ->
  _filter_by_string_field sf f = []
  /\ forall db,
       apply CountiesFilter
         (mkSearchFilterRequest None
            (Some (mkGeneralBoundariesFilter None None (Some sf)))
            None None None None None None) db
       = Ok [].
Proof.
  intros He Hs Hc.
  assert (H : forall g, _filter_by_string_field sf g = []).
  { intros g. unfold _filter_by_string_field. rewrite He, Hs, Hc. reflexivity. }
  split; [apply H|].
  intros db. unfold apply, CountiesFilter_apply, BaseFilter_apply.
  cbn [when_set geometry counties].
  rewrite (@general_filter_name_only sf models.Counties
             (col models.Counties "name")); try reflexivity.
  rewrite H. reflexivity.
Qed.

Lemma string_filter_contains_empty_witness :
  _filter_by_string_field (mkStringFilter (Some "") None None)
    (col models.Counties "name") = [].
Proof.
  apply (proj1 (@string_filter_contains_empty
                  (mkStringFilter (Some "") None None)
                  (col models.Counties "name") eq_refl eq_refl eq_refl)).
Defined.

(** C5 as written fails for [{contains: ""}] on the county name: there is
    no resulting predicate, and in a request that also has a group matching
    no county, the counties (whose names are all non-null) are not
    returned. *)
Lemma string_filter_contains_empty_counterexample :
  let sf := mkStringFilter (Some "") None None in
  (~ exists p, _filter_by_string_field sf (col models.Counties "name") = [p])
  /\ Forall (fun r => exists t, row_get r (col models.Counties "name") = VText t)
       (table_rows Sample.db "counties")
  /\ search CountiesService Sample.db "name" asc
       (mkSearchRequest
          [Sample.counties_group (mkGeneralBoundariesFilter None None (Some sf));
           Sample.counties_group (mkGeneralBoundariesFilter (Some [999]) None None)])
       (apply CountiesFilter) None None Sample.first_page
     = Ok (mkPage [] 0 1 50).
Proof.
  simpl. split; [|split].
  - intros [p Hp]. discriminate.
  - repeat constructor; eexists; reflexivity.
  - vm_compute. reflexivity.
Qed.

(** ** Geometry validation *)

Lemma check_fails_invalid (db : Session) (geom : GeomExpr) :
  check_fails db geom -> _is_valid_geometry db geom = Ok false.
Proof.
  unfold _is_valid_geometry.
  intros [(v & -> & Hv) | (msg & ->)]; [|reflexivity].
  destruct v as [z|]; [|reflexivity].
  destruct z as [|p|p]; try reflexivity.
  destruct p; try reflexivity. contradiction Hv. reflexivity.
Qed.

Lemma check_passes_valid (db : Session) (geom : GeomExpr) :
  scalar_ST_IsValid db geom = Ok (Some 1) -> _is_valid_geometry db geom = Ok true.
Proof. unfold _is_valid_geometry. intros ->. reflexivity. Qed.

Lemma Meta_geom_field_defined (self : FilterClass) :
  exists g, Meta_geom_field self = Some g.
Proof. destruct self; eexists; reflexivity. Qed.

Lemma apply_geometry_filter_one (self : FilterClass) (db : Session)
    (m : GeometryFilterMethod) (enc : Encoding) (raw : string) (g : Attr) :
  raw <> "" ->
  Meta_geom_field self = Some g ->
  _apply_geometry_filter self (geometry_filter_of m enc raw) db
  = _filter_by_geometry db raw (encoding_field enc) g (method_func m)
      (encoding_from_func enc).
Proof.
  intros Hraw Hg. unfold _apply_geometry_filter. rewrite Hg.
  assert (Ht : truthy_str (Some raw) = Some raw)
    by (destruct raw; [contradiction | reflexivity]).
  destruct m, enc; cbn [geometry_filter_of gf_method gf_ewkb gf_ewkt gf_geojson
    _get_filter_func bind encoding_field encoding_from_func method_func];
    rewrite Ht; cbn [truthy_str];
    destruct (_filter_by_geometry _ _ _ _ _ _) as [l|e];
    unfold yield_from; simpl; rewrite ?app_nil_r; reflexivity.
Qed.

(** C6.  When the validity check of the supplied geometry fails, be it by
    its answer or by an [OperationalError] of the engine, the filter raises
    [InvalidFilterGeometry] whose [field] names the encoding supplied and
    whose [value] is the raw input; when the check passes, the filter yields
    exactly one predicate, the chosen method applied to the geometry
    transformed to SRID 3346 and the geometry field. *)
Theorem invalid_geometry_raises (self : FilterClass) (db : Session)
    (m : GeometryFilterMethod) (enc : Encoding) (raw : string) :
  raw <> "" ->
  let geom := ST_Transform (GeomFrom (encoding_from_func enc) raw) 3346 in
  (forall field g fn,
     check_fails db geom ->
     _filter_by_geometry db raw field g fn (encoding_from_func enc)
     = Raise (InvalidFilterGeometry "Invalid geometry" field raw))
  /\ (check_fails db geom ->
      _apply_geometry_filter self (geometry_filter_of m enc raw) db
      = Raise (InvalidFilterGeometry "Invalid geometry" (encoding_field enc) raw))
  /\ (scalar_ST_IsValid db geom = Ok (Some 1) ->
      exists g, Meta_geom_field self = Some g
        /\ _apply_geometry_filter self (geometry_filter_of m enc raw) db
           = Ok [Pred (Spatial (method_func m) geom g)]).
Proof.
  intros Hraw geom.
  assert (Hbad : forall field g fn, check_fails db geom ->
            _filter_by_geometry db raw field g fn (encoding_from_func enc)
            = Raise (InvalidFilterGeometry "Invalid geometry" field raw)).
  { intros field g fn Hf. unfold _filter_by_geometry.
    fold geom. rewrite (check_fails_invalid Hf). reflexivity. }
  destruct (Meta_geom_field_defined self) as [g Hg].
  split; [exact Hbad | split].
  - intros Hf. rewrite (apply_geometry_filter_one self db m enc Hraw Hg).
    apply Hbad, Hf.
  - intros Hv. exists g. split; [exact Hg|].
    rewrite (apply_geometry_filter_one self db m enc Hraw Hg).
    unfold _filter_by_geometry. fold geom.
    rewrite (check_passes_valid _ _ Hv). reflexivity.
Qed.

(** An EWKT string that does not parse: the error names [ewkt] and echoes
    the string. *)
Lemma invalid_geometry_raises_witness :
  _apply_geometry_filter CountiesFilter
    (geometry_filter_of intersects enc_ewkt "POLYGON((") Sample.db
  = Raise (InvalidFilterGeometry "Invalid geometry" "ewkt" "POLYGON((").
Proof.
  refine (proj1 (proj2 (@invalid_geometry_raises CountiesFilter Sample.db
            intersects enc_ewkt "POLYGON((" _)) _).
  - discriminate.
  - right. exists "parse error". reflexivity.
Defined.

Example valid_geometry_one_predicate :
  apply RoomsFilter
    (Sample.geometry_group
       (mkGeometryFilter contains_ None (Some "SRID=4326;POINT(1 1)") None))
    Sample.db
  = Ok [Pred (Spatial ST_Contains
                (ST_Transform (GeomFrom ST_GeomFromEWKT "SRID=4326;POINT(1 1)")
                   3346)
                (col models.Addresses "geom"))].
Proof. reflexivity. Qed.

(** ** Projection and lookup *)

Lemma filter_all (l : list Row) (p : Row -> bool) :
  (forall r, p r = true) -> filter p l = l.
Proof.
  intros H. induction l as [|x l IH]; simpl; [reflexivity|].
  rewrite H, IH. reflexivity.
Qed.

Lemma execute_unrestricted (db : Session) (q : Select) :
  sel_where q = [] -> sel_order_by q = [] ->
  execute db q = table_rows db (tablename (sel_from q)).
Proof.
  intros Hw Ho. unfold execute. rewrite Hw, Ho.
  rewrite sort_rows_always_le by reflexivity.
  apply filter_all. reflexivity.
Qed.

Lemma get_select_query_shape (self : Service) (srid : option Z)
    (fmt : option GeometryOutputFormat) (q : Select) :
  _get_select_query self srid fmt = Ok q ->
  sel_from q = model_class self /\ sel_where q = [] /\ sel_order_by q = [].
Proof.
  unfold _get_select_query, plus_if, _get_geometry_field,
    _get_geometry_field_two_args, _get_geometry_output_type.
  destruct self, (truthy_int srid), fmt as [[|]|]; simpl;
    intros H; inversion H; subst; simpl; auto.
Qed.

(** C7, as the code has it.  Counties and rooms project a geometry column
    exactly when an output SRID (other than 0) and a format are both given,
    and the column is the stored geometry transformed to that SRID and typed
    by the format.  Addresses and parcels project it whenever a format is
    given, whatever the SRID.  Municipalities, elderships, residential areas
    and streets project none when no SRID (or SRID 0) is given. *)
Theorem geometry_projection (self : Service) (srid : option Z)
    (fmt : option GeometryOutputFormat) :
  (In self [CountiesService; RoomsService] ->
     exists q, _get_select_query self srid fmt = Ok q
       /\ has_geometry q = truthy_int srid && truthy_fmt fmt
       /\ forall f, truthy_int srid = true -> fmt = Some f ->
            In (GeometryLabel (geometry_source self) srid (output_type f))
              (sel_columns q))
  /\ (In self [AddressesService; ParcelsService] ->
      forall f, exists q, _get_select_query self srid (Some f) = Ok q
        /\ has_geometry q = true
        /\ In (GeometryLabel (geometry_source self) srid (output_type f))
             (sel_columns q))
  /\ (In self [MunicipalitiesService; EldershipsService;
               ResidentialAreasService; StreetsService] ->
      truthy_int srid = false ->
      exists q, _get_select_query self srid fmt = Ok q
        /\ has_geometry q = false).
Proof.
  split; [|split].
  - intros [<-|[<-|[]]];
      destruct (truthy_int srid) eqn:Es; destruct fmt as [[|]|];
      unfold _get_select_query, plus_if; rewrite Es; simpl;
      eexists; (split; [reflexivity|]); (split; [reflexivity|]);
      intros f Hs Hf; try discriminate; inversion Hf; subst; simpl; auto 10.
  - intros [<-|[<-|[]]] f; destruct f; simpl;
      eexists; (split; [reflexivity|]); (split; [reflexivity|]);
      simpl; auto 12.
  - intros [<-|[<-|[<-|[<-|[]]]]] Es;
      unfold _get_select_query, plus_if; rewrite Es; simpl;
      eexists; (split; reflexivity).
Qed.

(** Rooms searched with neither SRID nor format: a query without geometry. *)
Lemma geometry_projection_witness :
  exists q, _get_select_query RoomsService None None = Ok q
    /\ has_geometry q = false.
Proof.
  destruct (proj1 (geometry_projection RoomsService None None))
    as (q & Hq & Hg & _).
  - simpl. auto.
  - exists q. split; [exact Hq | exact Hg].
Defined.

(** C7 as written fails for rooms: with no SRID and no format the room
    projection has no geometry column. *)
Lemma rooms_geometry_counterexample :
  exists q, _get_select_query RoomsService None None = Ok q
    /\ has_geometry q = false
    /\ sel_columns q =
       [Column (col models.Rooms "code");
        Column (col models.Rooms "room_number");
        Column (col models.Rooms "created_at");
        Json _address_short_object].
Proof.
  eexists. repeat split.
Qed.

(** The four services that pass two arguments fail as soon as an SRID is
    given, and addresses and parcels fail without a format. *)
Example municipalities_with_srid :
  _get_select_query MunicipalitiesService (Some 4326) (Some fmt_ewkb)
  = Raise (TypeError
      "_get_geometry_field() missing 1 required positional argument: 'geometry_output_format'").
Proof. reflexivity. Qed.

Example addresses_without_format :
  _get_select_query AddressesService (Some 4326) None
  = Raise (ValueError "Unable to map geometry output format None").
Proof. reflexivity. Qed.

(** C9.  For parcels the code filter returns the query unchanged, so the
    lookup does not depend on the code: it returns the first row of the
    unfiltered parcel query. *)
Theorem parcels_lookup_ignores_code (db : Session) (code code' : Z)
    (fmt : option GeometryOutputFormat) (srid : option Z) :
  (forall q, _filter_by_code ParcelsService q code = q)
  /\ get_by_code ParcelsService db code fmt srid
     = get_by_code ParcelsService db code' fmt srid
  /\ (forall f,
        get_by_code ParcelsService db code (Some f) srid
        = Ok (first (table_rows db (tablename models.Parcels)))).
Proof.
  split; [reflexivity | split; [reflexivity|]].
  intros f. unfold get_by_code.
  destruct (_get_select_query ParcelsService srid (Some f)) as [q|e] eqn:E.
  - destruct (get_select_query_shape _ _ _ E) as (Hf & Hw & Ho).
    simpl. rewrite execute_unrestricted by assumption.
    rewrite Hf. reflexivity.
  - destruct f; discriminate.
Qed.

Example parcels_lookup_any_code :
  get_by_code ParcelsService Sample.db 55 (Some fmt_ewkb) None
  = Ok (Some (Sample.parcel 44 "0101/0001:1")).
Proof. reflexivity. Qed.

Example counties_lookup_by_code :
  get_by_code CountiesService Sample.db 2 None None
  = Ok (Some (Sample.county 2 2 "Kauno apskritis")).
Proof. reflexivity. Qed.

(** ** Composition of the filter groups *)

Section Composition.

Variable boundaries_filter :
  SearchFilterRequest -> Session -> result (list Clause).
Variable db : Session.

Lemma collect_search_filters_spec (fs : list SearchFilterRequest)
    (acc : list Clause) :
  collect_search_filters boundaries_filter db fs acc
  = (pss <- materialize boundaries_filter db fs ;;
     Ok (acc ++ map and_ (filter nonempty pss))).
Proof.
  revert acc. induction fs as [|g fs IH]; intros acc; simpl.
  - rewrite app_nil_r. reflexivity.
  - destruct (boundaries_filter g db) as [ps|e]; simpl; [|reflexivity].
    rewrite IH.
    destruct (materialize boundaries_filter db fs) as [pss|e]; simpl;
      [|reflexivity].
    destruct ps as [|p ps]; simpl; [reflexivity|].
    rewrite <- app_assoc. reflexivity.
Qed.

Lemma materialize_all_empty (fs : list SearchFilterRequest) :
  Forall (fun g => boundaries_filter g db = Ok []) fs ->
  exists pss, materialize boundaries_filter db fs = Ok pss
    /\ filter nonempty pss = [].
Proof.
  induction 1 as [|g fs Hg _ (pss & Hm & Hf)]; simpl.
  - exists []. auto.
  - rewrite Hg, Hm. simpl. exists ([] :: pss). auto.
Qed.

End Composition.

Lemma search_query_inv (self : Service) (db : Session) (sort_by_field : string)
    (sort_order : SearchSortOrder) (request : SearchRequest)
    (boundaries_filter : SearchFilterRequest -> Session -> result (list Clause))
    (srid : option Z) (fmt : option GeometryOutputFormat) (q : Select) :
  search_query self db sort_by_field sort_order request boundaries_filter
    srid fmt = Ok q ->
  exists pss sort_attr,
    materialize boundaries_filter db (filters request) = Ok pss
    /\ getattr (model_class self) sort_by_field = Ok sort_attr
    /\ sel_from q = model_class self
    /\ sel_where q = [or_of_ands pss]
    /\ sel_order_by q =
       (if is_natural_field sort_by_field
        then [natural_term sort_order sort_attr] else [])
       ++ sort_by_term sort_order sort_attr
       :: (if hasattr (model_class self) "code" then [code_term self] else []).
Proof.
  unfold search_query. intros H.
  inv_bind H q0 Hq0.
  rewrite collect_search_filters_spec in H.
  inv_bind H cs Hcs. inv_bind Hcs pss Hpss. inv_bind H sort_attr Hattr.
  injection Hcs as <-. injection H as <-.
  destruct (get_select_query_shape _ _ _ Hq0) as (Hf & Hw & Ho).
  exists pss, sort_attr. repeat (split; [assumption|]).
  fold (is_natural_field sort_by_field).
  unfold natural_term, sort_by_term, code_term.
  destruct (is_natural_field sort_by_field), (is_desc sort_order),
    (hasattr (model_class self) "code"); simpl; rewrite ?Hw, ?Ho; auto.
Qed.

(** ** Truth of the composed clause *)

Lemma and_of_satisfied (db : Session) (r : Row) (ps : list Clause) :
  Forall (satisfied db r) ps -> eval3 db r (and_ ps) = Some true.
Proof.
  induction 1 as [|p ps (a & -> & Ha) _ IH]; simpl; [reflexivity|].
  simpl in IH. rewrite IH, Ha. reflexivity.
Qed.

Lemma and_of_satisfied_not_blank (db : Session) (r : Row) (ps : list Clause) :
  ps <> [] -> Forall (satisfied db r) ps -> blank (and_ ps) = false.
Proof.
  intros Hne H. destruct H as [|p ps (a & -> & _) _]; [contradiction|].
  reflexivity.
Qed.

Lemma or_with_true_member (db : Session) (r : Row) (c : Clause)
    (cs : list Clause) :
  In c cs -> blank c = false -> eval3 db r c = Some true ->
  blank (or_ cs) = false /\ eval3 db r (or_ cs) = Some true.
Proof.
  intros Hin Hb Hc. induction cs as [|x cs IH]; [contradiction|].
  destruct Hin as [->|Hin].
  - simpl. rewrite Hb, Hc. split; reflexivity.
  - destruct (IH Hin) as [IHb IHe]. simpl in *. rewrite IHb, IHe.
    split; [apply andb_false_r|].
    destruct (blank x); [reflexivity|]. destruct (eval3 db r x) as [[|]|];
      reflexivity.
Qed.

Lemma or_of_ands_holds (db : Session) (r : Row) (pss : list (list Clause)) :
  (exists ps, In ps pss /\ ps <> [] /\ Forall (satisfied db r) ps) ->
  where_holds db [or_of_ands pss] r = true.
Proof.
  intros (ps & Hin & Hne & Hsat).
  destruct (@or_with_true_member db r (and_ ps)
              (map and_ (filter nonempty pss))) as [Hb He].
  - apply in_map, filter_In. split; [assumption|].
    destruct ps; [contradiction | reflexivity].
  - eapply and_of_satisfied_not_blank; eassumption.
  - apply and_of_satisfied; assumption.
  - unfold where_holds, or_of_ands. cbn [forallb]. rewrite Hb, He. reflexivity.
Qed.

Lemma paginate_first_page (db : Session) (params : Params) (q : Select) :
  page params = 1%nat ->
  (List.length (execute db q) <= size params)%nat ->
  items (paginate db params q) = execute db q.
Proof.
  intros Hp Hs. unfold paginate. simpl. rewrite Hp. simpl.
  apply firstn_all2. assumption.
Qed.

Lemma search_inv (self : Service) (db : Session) (sort_by_field : string)
    (sort_order : SearchSortOrder) (request : SearchRequest)
    (boundaries_filter : SearchFilterRequest -> Session -> result (list Clause))
    (srid : option Z) (fmt : option GeometryOutputFormat) (params : Params)
    (pg : Page) :
  search self db sort_by_field sort_order request boundaries_filter srid fmt
    params = Ok pg ->
  exists q,
    search_query self db sort_by_field sort_order request boundaries_filter
      srid fmt = Ok q
    /\ pg = paginate db params q.
Proof.
  unfold search. intros H. inv_bind H q Hq.
  exists q. split; [assumption | congruence].
Qed.

(** C1.  The WHERE clause of a search is the OR, over the groups whose
    materialized predicate list is not empty, of the AND of that list; the
    groups with an empty list contribute nothing.  Hence a row of the entity
    on which every predicate of some group is true is in the result exactly
    once (and in the items of a first page that holds the whole result). *)
Theorem search_or_of_and (self : Service) (db : Session)
    (sort_by_field : string) (sort_order : SearchSortOrder)
    (request : SearchRequest)
    (boundaries_filter : SearchFilterRequest -> Session -> result (list Clause))
    (srid : option Z) (fmt : option GeometryOutputFormat) (params : Params)
    (pg : Page) :
  search self db sort_by_field sort_order request boundaries_filter srid fmt
    params = Ok pg ->
  exists q pss,
    search_query self db sort_by_field sort_order request boundaries_filter
      srid fmt = Ok q
    /\ pg = paginate db params q
    /\ materialize boundaries_filter db (filters request) = Ok pss
    /\ sel_where q = [or_ (map and_ (filter nonempty pss))]
    /\ forall r,
         NoDup (table_rows db (tablename (model_class self))) ->
         In r (table_rows db (tablename (model_class self))) ->
         (exists ps, In ps pss /\ ps <> [] /\ Forall (satisfied db r) ps) ->
         count_occ Row_eq_dec (execute db q) r = 1%nat
         /\ total pg = List.length (execute db q)
         /\ (page params = 1%nat ->
             (List.length (execute db q) <= size params)%nat ->
             count_occ Row_eq_dec (items pg) r = 1%nat).
Proof.
  intros H. destruct (search_inv _ _ _ _ _ _ _ _ _ H) as (q & Hq & ->).
  destruct (search_query_inv _ _ _ _ _ _ _ _ Hq)
    as (pss & sort_attr & Hm & _ & Hf & Hw & _).
  exists q, pss. repeat (split; [assumption || reflexivity|]).
  intros r Hnd Hin Hsat.
  assert (Hone : count_occ Row_eq_dec (execute db q) r = 1%nat).
  { apply NoDup_count_occ'.
    - apply execute_NoDup. rewrite Hf. assumption.
    - apply execute_In. rewrite Hf, Hw. split; [assumption|].
      apply or_of_ands_holds. assumption. }
  split; [exact Hone | split; [reflexivity|]].
  intros Hp Hs. rewrite paginate_first_page by assumption. exact Hone.
Qed.

(** Two mutually exclusive county groups: the Kaunas row satisfies the first
    and is returned once. *)
Lemma search_or_of_and_witness :
  let request :=
    mkSearchRequest
      [Sample.counties_group
         (mkGeneralBoundariesFilter None None
            (Some (mkStringFilter None (Some "KAUNO apskritis") None)));
       Sample.counties_group
         (mkGeneralBoundariesFilter (Some [10]) None None)] in
  let pg :=
    mkPage [Sample.county 2 2 "Kauno apskritis";
            Sample.county 10 1 "Vilniaus apskritis"] 2 1 50 in
  search CountiesService Sample.db "code" asc request (apply CountiesFilter)
    None None Sample.first_page = Ok pg
  /\ count_occ Row_eq_dec (items pg) (Sample.county 2 2 "Kauno apskritis")
     = 1%nat.
Proof.
  intros request pg.
  assert (E : search CountiesService Sample.db "code" asc request
                (apply CountiesFilter) None None Sample.first_page = Ok pg)
    by reflexivity.
  split; [exact E|].
  destruct (search_or_of_and _ _ _ _ _ _ _ _ _ E)
    as (q & pss & Hq & Hpg & Hm & Hw & Hrow).
  injection Hm as <-.
  destruct (Hrow (Sample.county 2 2 "Kauno apskritis")) as (_ & _ & Hitems).
  - repeat constructor; simpl; intuition discriminate.
  - simpl. auto.
  - eexists. split; [left; reflexivity|].
    split; [discriminate|].
    repeat constructor. eexists. split; reflexivity.
  - apply Hitems; [reflexivity|].
    injection Hq as <-. vm_compute. lia.
Defined.

(** ** Requests without any clause *)

(** C2, as the code has it.  When the filter list is empty, or every group
    materializes to an empty predicate list, the OR has no clause and the
    WHERE restricts nothing: the search returns the rows of the entity, all
    of them, and the total is their number. *)
Theorem search_without_clause_returns_all (self : Service) (db : Session)
    (sort_by_field : string) (sort_order : SearchSortOrder)
    (request : SearchRequest)
    (boundaries_filter : SearchFilterRequest -> Session -> result (list Clause))
    (srid : option Z) (fmt : option GeometryOutputFormat) (params : Params)
    (pg : Page) :
  Forall (fun g => boundaries_filter g db = Ok []) (filters request) ->
  search self db sort_by_field sort_order request boundaries_filter srid fmt
    params = Ok pg ->
  exists q,
    search_query self db sort_by_field sort_order request boundaries_filter
      srid fmt = Ok q
    /\ pg = paginate db params q
    /\ sel_where q = [or_ []]
    /\ Permutation (execute db q)
         (table_rows db (tablename (model_class self)))
    /\ total pg = List.length (table_rows db (tablename (model_class self))).
Proof.
  intros Hall H. destruct (search_inv _ _ _ _ _ _ _ _ _ H) as (q & Hq & ->).
  destruct (search_query_inv _ _ _ _ _ _ _ _ Hq)
    as (pss & sort_attr & Hm & _ & Hf & Hw & _).
  destruct (@materialize_all_empty _ _ _ Hall) as (pss' & Hm' & Hempty).
  rewrite Hm in Hm'. injection Hm' as <-.
  unfold or_of_ands in Hw. rewrite Hempty in Hw. simpl in Hw.
  assert (Hperm : Permutation (execute db q)
                    (table_rows db (tablename (model_class self)))).
  { unfold execute. rewrite Hw, Hf.
    rewrite filter_all by reflexivity. apply sort_rows_perm. }
  exists q. split; [assumption|]. split; [reflexivity|].
  split; [assumption|]. split; [exact Hperm|].
  unfold paginate. simpl. apply Permutation_length, Hperm.
Qed.

(** A county search with the default, empty filter list returns both
    counties. *)
Lemma search_without_clause_returns_all_witness :
  let pg :=
    mkPage [Sample.county 2 2 "Kauno apskritis";
            Sample.county 10 1 "Vilniaus apskritis"] 2 1 50 in
  search CountiesService Sample.db "code" asc (mkSearchRequest [])
    (apply CountiesFilter) None None Sample.first_page = Ok pg
  /\ total pg = List.length (table_rows Sample.db "counties").
Proof.
  intros pg.
  assert (E : search CountiesService Sample.db "code" asc (mkSearchRequest [])
                (apply CountiesFilter) None None Sample.first_page = Ok pg)
    by reflexivity.
  split; [exact E|].
  destruct (@search_without_clause_returns_all CountiesService Sample.db
              "code" asc (mkSearchRequest []) (apply CountiesFilter) None None
              Sample.first_page pg (Forall_nil _) E)
    as (q & _ & _ & _ & _ & Ht).
  exact Ht.
Defined.

(** C2 as written fails on the sample store: with no filter group, and
    also with one group that sets nothing, the search returns the two
    counties, not zero items. *)
Lemma search_empty_filters_counterexample :
  let pg :=
    mkPage [Sample.county 2 2 "Kauno apskritis";
            Sample.county 10 1 "Vilniaus apskritis"] 2 1 50 in
  search CountiesService Sample.db "code" asc (mkSearchRequest [])
    (apply CountiesFilter) None None Sample.first_page = Ok pg
  /\ search CountiesService Sample.db "code" asc
       (mkSearchRequest [Sample.no_filter])
       (apply CountiesFilter) None None Sample.first_page = Ok pg
  /\ items pg <> [].
Proof.
  simpl. repeat split. discriminate.
Qed.

(** ** Sort order *)

Lemma natural_key_not_text (db : Session) (a : Attr) (r : Row) (s : string) :
  natural_key db a r <> VText s.
Proof.
  unfold natural_key, order_value. destruct (row_get r a); discriminate.
Qed.

Lemma value_le_trans_numeric (u v w : value) :
  (forall s, v <> VText s) ->
  value_le u v -> value_le v w -> value_le u w.
Proof.
  unfold value_le. intros Hv.
  destruct u as [|p|s], v as [|q|t], w as [|x|y]; simpl; try congruence.
  - rewrite <- !Qle_alt. apply Qle_trans.
  - exfalso. apply (Hv t). reflexivity.
Qed.

Lemma value_le_flip (v w : value) :
  CompOpp (value_compare v w) <> Gt -> value_le w v.
Proof.
  unfold value_le. rewrite (value_compare_antisym v w).
  destruct (value_compare v w); simpl; congruence.
Qed.

Lemma natural_first_term (db : Session) (sort_order : SearchSortOrder)
    (a : Attr) (ts : list OrderTerm) (r1 r2 : Row) :
  rows_leb db (natural_term sort_order a :: ts) r1 r2 = true ->
  in_direction sort_order (natural_key db a r1) (natural_key db a r2).
Proof.
  unfold rows_leb, natural_term, natural_key.
  destruct sort_order; cbn [is_desc rows_compare term_compare in_direction].
  - unfold value_le.
    destruct (value_compare (order_value db (OMul a 1) r1)
                (order_value db (OMul a 1) r2)); intros H; congruence.
  - intros H. apply value_le_flip.
    destruct (value_compare (order_value db (OMul a 1) r1)
                (order_value db (OMul a 1) r2)); simpl in *; congruence.
Qed.

Lemma rows_compare_ties (db : Session) (ts ts' : list OrderTerm)
    (r1 r2 : Row) :
  Forall (fun t => term_compare db t r1 r2 = Eq) ts ->
  rows_compare db (ts ++ ts') r1 r2 = rows_compare db ts' r1 r2.
Proof.
  induction 1 as [|t ts Ht _ IH]; simpl; [reflexivity|].
  rewrite Ht. exact IH.
Qed.

Lemma code_breaks_ties (db : Session) (self : Service)
    (before : list OrderTerm) (sb : OrderTerm) (r1 r2 : Row) :
  rows_leb db (before ++ [sb; code_term self]) r1 r2 = true ->
  Forall (fun t => term_compare db t r1 r2 = Eq) (before ++ [sb]) ->
  value_le (row_get r1 (col (model_class self) "code"))
    (row_get r2 (col (model_class self) "code")).
Proof.
  intros Hle Hties. unfold rows_leb in Hle.
  change (before ++ [sb; code_term self])
    with (before ++ [sb] ++ [code_term self]) in Hle.
  rewrite app_assoc, (@rows_compare_ties db _ _ _ _ Hties) in Hle.
  unfold value_le. simpl in Hle.
  destruct (value_compare (row_get r1 (col (model_class self) "code"))
              (row_get r2 (col (model_class self) "code")));
    congruence.
Qed.

Lemma in_direction_trans (db : Session) (sort_order : SearchSortOrder)
    (a : Attr) :
  Relations_1.Transitive
    (fun r1 r2 => in_direction sort_order (natural_key db a r1)
                    (natural_key db a r2)).
Proof.
  intros r1 r2 r3. destruct sort_order; simpl; intros H12 H23.
  - eapply value_le_trans_numeric; eauto. apply natural_key_not_text.
  - eapply value_le_trans_numeric; eauto. apply natural_key_not_text.
Qed.

Lemma StronglySorted_app_inv (R : Row -> Row -> Prop) (l1 l2 : list Row) :
  StronglySorted R (l1 ++ l2) -> StronglySorted R l1 /\ StronglySorted R l2.
Proof.
  induction l1 as [|x l1 IH]; simpl; intros H.
  - split; [constructor | assumption].
  - apply StronglySorted_inv in H. destruct H as [Hs Hf].
    destruct (IH Hs) as [H1 H2]. split; [|assumption].
    constructor; [assumption|]. apply Forall_app in Hf. tauto.
Qed.

Lemma StronglySorted_slice (R : Row -> Row -> Prop) (l : list Row) (m n : nat) :
  StronglySorted R l -> StronglySorted R (firstn n (skipn m l)).
Proof.
  intros H. rewrite <- (firstn_skipn m l) in H.
  apply StronglySorted_app_inv in H. destruct H as [_ H].
  rewrite <- (firstn_skipn n (skipn m l)) in H.
  apply StronglySorted_app_inv in H. tauto.
Qed.

(** C8.  A search sorted by [room_number] or [plot_or_building_number]
    orders by the field times one, in the requested direction, before the
    field itself: the executed rows, and the items of every page, are ordered
    by the number the engine coerces the field to.  For every entity with a
    [code] column the last two ORDER BY terms are the sort field and then
    [code] ascending, so neighbouring rows that tie on every earlier term
    come in ascending order of [code]. *)
Theorem natural_sort_order (self : Service) (db : Session)
    (sort_by_field : string) (sort_order : SearchSortOrder)
    (request : SearchRequest)
    (boundaries_filter : SearchFilterRequest -> Session -> result (list Clause))
    (srid : option Z) (fmt : option GeometryOutputFormat) (q : Select) :
  search_query self db sort_by_field sort_order request boundaries_filter
    srid fmt = Ok q ->
  exists sort_attr,
    getattr (model_class self) sort_by_field = Ok sort_attr
    /\ (is_natural_field sort_by_field = true ->
        let ordered r1 r2 :=
          in_direction sort_order (natural_key db sort_attr r1)
            (natural_key db sort_attr r2) in
        sel_order_by q =
          natural_term sort_order sort_attr
          :: sort_by_term sort_order sort_attr
          :: (if hasattr (model_class self) "code"
              then [code_term self] else [])
        /\ (forall r s, row_get r sort_attr = VText s ->
              natural_key db sort_attr r = VNum (to_numeric db s * 1))
        /\ StronglySorted ordered (execute db q)
        /\ forall params,
             StronglySorted ordered (items (paginate db params q)))
    /\ (hasattr (model_class self) "code" = true ->
        exists before,
          sel_order_by q =
            before ++ [sort_by_term sort_order sort_attr; code_term self]
          /\ Sorted
               (fun r1 r2 =>
                  Forall (fun t => term_compare db t r1 r2 = Eq)
                    (before ++ [sort_by_term sort_order sort_attr]) ->
                  value_le (row_get r1 (col (model_class self) "code"))
                    (row_get r2 (col (model_class self) "code")))
               (execute db q))
    /\ Sorted (fun r1 r2 => rows_leb db (sel_order_by q) r1 r2 = true)
         (execute db q).
Proof.
  intros Hq.
  destruct (search_query_inv _ _ _ _ _ _ _ _ Hq)
    as (pss & sort_attr & _ & Hattr & _ & _ & Ho).
  exists sort_attr. split; [assumption|]. split; [|split].
  - intros Hnat ordered. rewrite Hnat in Ho. simpl in Ho.
    assert (Hss : StronglySorted ordered (execute db q)).
    { apply Sorted_StronglySorted; [apply in_direction_trans|].
      eapply Sorted_weaken; [|apply execute_sorted].
      intros r1 r2. rewrite Ho. apply natural_first_term. }
    split; [assumption|]. split; [|split; [assumption|]].
    + intros r s Hr. unfold natural_key, order_value. rewrite Hr. reflexivity.
    + intros params. apply StronglySorted_slice. assumption.
  - intros Hcode. rewrite Hcode in Ho.
    exists (if is_natural_field sort_by_field
            then [natural_term sort_order sort_attr] else []).
    split; [exact Ho|].
    eapply Sorted_weaken; [|apply execute_sorted].
    intros r1 r2 Hle Hties. rewrite Ho in Hle.
    eapply code_breaks_ties; eassumption.
  - apply execute_sorted.
Qed.

(** Addresses sorted by plot number, ascending, on the sample store: the
    executed rows are ordered by the numeric prefix. *)
Lemma natural_sort_order_witness :
  exists q,
    search_query AddressesService Sample.db "plot_or_building_number" asc
      (mkSearchRequest []) (apply AddressesFilter) (Some 3346)
      (Some fmt_ewkt) = Ok q
    /\ StronglySorted
         (fun r1 r2 =>
            value_le
              (natural_key Sample.db
                 (col models.Addresses "plot_or_building_number") r1)
              (natural_key Sample.db
                 (col models.Addresses "plot_or_building_number") r2))
         (execute Sample.db q).
Proof.
  eexists. split; [reflexivity|].
  match goal with
  | |- StronglySorted _ (execute _ ?q) =>
      destruct (@natural_sort_order AddressesService Sample.db
                  "plot_or_building_number" asc (mkSearchRequest [])
                  (apply AddressesFilter) (Some 3346) (Some fmt_ewkt) q
                  eq_refl) as (a & Ha & Hnat & _)
  end.
  injection Ha as <-.
  destruct (Hnat eq_refl) as (_ & _ & Hss & _). exact Hss.
Defined.

(** The plot numbers 2, 10, 1A, 101 come back as 1A, 2, 10, 101. *)
Example natural_sort_plot_numbers :
  match search AddressesService Sample.db "plot_or_building_number" asc
          (mkSearchRequest []) (apply AddressesFilter) (Some 3346)
          (Some fmt_ewkt) Sample.first_page with
  | Ok pg =>
      map (fun r => row_get r (col models.Addresses "plot_or_building_number"))
        (items pg)
  | Raise _ => []
  end
  = [VText "1A"; VText "2"; VText "10"; VText "101"].
Proof. reflexivity. Qed.

(** Room 2 sorts before room 101A, and after it when descending. *)
Example natural_sort_room_numbers :
  match search RoomsService Sample.db "room_number" asc (mkSearchRequest [])
          (apply RoomsFilter) None None Sample.first_page,
        search RoomsService Sample.db "room_number" desc (mkSearchRequest [])
          (apply RoomsFilter) None None Sample.first_page with
  | Ok up, Ok down =>
      (map (fun r => row_get r (col models.Rooms "room_number")) (items up),
       map (fun r => row_get r (col models.Rooms "room_number")) (items down))
  | _, _ => ([], [])
  end
  = ([VText "2"; VText "101A"], [VText "101A"; VText "2"]).
Proof. reflexivity. Qed.

(** * Further properties *)

(** ** Draining generators one after the other *)

Lemma yield_from_nil_l {A : Type} (g : result (list A)) : Ok [] +++ g = g.
Proof. destruct g; reflexivity. Qed.

Lemma yield_from_nil_r {A : Type} (g : result (list A)) : g +++ Ok [] = g.
Proof. destruct g; simpl; [rewrite app_nil_r|]; reflexivity. Qed.

Lemma yield_from_Ok {A : Type} (a b : list A) : Ok a +++ Ok b = Ok (a ++ b).
Proof. reflexivity. Qed.

Lemma yield_from_Raise {A : Type} (e : exn) (g : result (list A)) :
  Raise e +++ g = Raise e.
Proof. reflexivity. Qed.

Lemma yield_from_assoc {A : Type} (a b c : result (list A)) :
  (a +++ b) +++ c = a +++ (b +++ c).
Proof.
  destruct a as [x|e], b as [y|e'], c as [z|e'']; simpl; try reflexivity.
  rewrite app_assoc. reflexivity.
Qed.

(** ** The geometry filter, encoding by encoding *)

Lemma apply_geometry_filter_on_Meta (self : FilterClass) (gf : GeometryFilter)
    (db : Session) :
  _apply_geometry_filter self gf db
  = apply_geometry_filter_on (Meta_geom_field self) gf db.
Proof. reflexivity. Qed.

Lemma apply_geometry_filter_on_each (g : Attr) (gf : GeometryFilter)
    (db : Session) :
  apply_geometry_filter_on (Some g) gf db
  = validate_each db g (gf_method gf) (supplied_encodings gf).
Proof.
  unfold apply_geometry_filter_on, supplied_encodings, validate_each.
  assert (Hm : _get_filter_func (gf_method gf) = Ok (method_func (gf_method gf)))
    by (destruct (gf_method gf); reflexivity).
  rewrite Hm. cbn [bind].
  destruct (truthy_str (gf_ewkb gf)), (truthy_str (gf_ewkt gf)),
    (truthy_str (gf_geojson gf));
    cbn [app fold_right fst snd encoding_field encoding_from_func];
    rewrite ?yield_from_nil_l, ?yield_from_nil_r; reflexivity.
Qed.

Lemma filter_by_geometry_passes (db : Session) (g : Attr)
    (m : GeometryFilterMethod) (er : Encoding * string) :
  check_passes db er ->
  _filter_by_geometry db (snd er) (encoding_field (fst er)) g (method_func m)
    (encoding_from_func (fst er))
  = Ok [spatial_predicate m g er].
Proof.
  unfold check_passes, filter_geometry, _filter_by_geometry. intros H.
  rewrite (check_passes_valid _ _ H). reflexivity.
Qed.

Lemma validate_each_all_pass (db : Session) (g : Attr)
    (m : GeometryFilterMethod) (l : list (Encoding * string)) :
  Forall (check_passes db) l ->
  validate_each db g m l = Ok (map (spatial_predicate m g) l).
Proof.
  induction 1 as [|er l Her _ IH]; [reflexivity|].
  unfold validate_each in *. cbn [fold_right map].
  rewrite IH, (filter_by_geometry_passes g m Her). reflexivity.
Qed.

Lemma validate_each_stops (db : Session) (g : Attr) (m : GeometryFilterMethod)
    (pre post : list (Encoding * string)) (er : Encoding * string) (e : exn) :
  Forall (check_passes db) pre ->
  _filter_by_geometry db (snd er) (encoding_field (fst er)) g (method_func m)
    (encoding_from_func (fst er)) = Raise e ->
  validate_each db g m (pre ++ er :: post) = Raise e.
Proof.
  intros Hpre He. induction Hpre as [|x pre Hx _ IH].
  - unfold validate_each. cbn [app fold_right]. rewrite He. reflexivity.
  - unfold validate_each in *. cbn [app fold_right].
    rewrite IH, (filter_by_geometry_passes g m Hx). reflexivity.
Qed.

(** X1.  When every supplied encoding passes the validity check, the
    geometry filter yields one predicate per supplied encoding, in the order
    ewkb, ewkt, geojson, each the chosen method on that geometry and the
    class's geometry field; with two encodings there are two predicates, with
    none (or only empty strings) there is none. *)
Theorem geometry_filter_one_predicate_per_encoding (self : FilterClass)
    (gf : GeometryFilter) (db : Session) :
  Forall (check_passes db) (supplied_encodings gf) ->
  exists g,
    Meta_geom_field self = Some g
    /\ _apply_geometry_filter self gf db
       = Ok (map (spatial_predicate (gf_method gf) g) (supplied_encodings gf)).
Proof.
  intros H. destruct (Meta_geom_field_defined self) as [g Hg].
  exists g. split; [assumption|].
  rewrite apply_geometry_filter_on_Meta, Hg, apply_geometry_filter_on_each.
  apply validate_each_all_pass. assumption.
Qed.

Lemma geometry_filter_one_predicate_per_encoding_witness :
  exists g,
    Meta_geom_field StreetsFilter = Some g
    /\ _apply_geometry_filter StreetsFilter
         (mkGeometryFilter intersects None (Some "SRID=4326;POINT(1 1)") None)
         Sample.db
       = Ok [spatial_predicate intersects g
               (enc_ewkt, "SRID=4326;POINT(1 1)")].
Proof.
  apply (@geometry_filter_one_predicate_per_encoding StreetsFilter
           (mkGeometryFilter intersects None (Some "SRID=4326;POINT(1 1)") None)
           Sample.db).
  repeat constructor.
Defined.

(** X2.  The first supplied encoding whose validity check fails decides
    the error: the filter raises [InvalidFilterGeometry] naming that encoding
    and echoing its raw string, whatever comes after it. *)
Theorem geometry_filter_first_invalid (self : FilterClass)
    (gf : GeometryFilter) (db : Session)
    (pre post : list (Encoding * string)) (er : Encoding * string) :
  supplied_encodings gf = pre ++ er :: post ->
  Forall (check_passes db) pre ->
  check_fails db (filter_geometry er) ->
  _apply_geometry_filter self gf db
  = Raise (InvalidFilterGeometry "Invalid geometry" (encoding_field (fst er))
             (snd er)).
Proof.
  intros Hs Hpre Hf. destruct (Meta_geom_field_defined self) as [g Hg].
  rewrite apply_geometry_filter_on_Meta, Hg, apply_geometry_filter_on_each, Hs.
  apply validate_each_stops; [assumption|].
  unfold _filter_by_geometry. unfold filter_geometry in Hf.
  rewrite (check_fails_invalid Hf). reflexivity.
Qed.

(** A valid EWKT followed by a GeoJSON the engine rejects. *)
Lemma geometry_filter_first_invalid_witness :
  _apply_geometry_filter CountiesFilter
    (mkGeometryFilter intersects None (Some "SRID=4326;POINT(1 1)")
       (Some "{}")) Sample.db
  = Raise (InvalidFilterGeometry "Invalid geometry" "geojson" "{}").
Proof.
  apply (@geometry_filter_first_invalid CountiesFilter
           (mkGeometryFilter intersects None (Some "SRID=4326;POINT(1 1)")
              (Some "{}")) Sample.db
           [(enc_ewkt, "SRID=4326;POINT(1 1)")] [] (enc_geojson, "{}")).
  - reflexivity.
  - repeat constructor.
  - left. exists (Some 0). split; [reflexivity | discriminate].
Defined.

(** X3.  An exception of the validity check other than [OperationalError]
    is not turned into an invalid-geometry error: the filter raises that very
    exception. *)
Theorem geometry_filter_other_errors_propagate (self : FilterClass)
    (gf : GeometryFilter) (db : Session)
    (pre post : list (Encoding * string)) (er : Encoding * string) (e : exn) :
  supplied_encodings gf = pre ++ er :: post ->
  Forall (check_passes db) pre ->
  scalar_ST_IsValid db (filter_geometry er) = Raise e ->
  is_operational e = false ->
  _apply_geometry_filter self gf db = Raise e.
Proof.
  intros Hs Hpre He Hop. destruct (Meta_geom_field_defined self) as [g Hg].
  rewrite apply_geometry_filter_on_Meta, Hg, apply_geometry_filter_on_each, Hs.
  apply validate_each_stops; [assumption|].
  unfold _filter_by_geometry, _is_valid_geometry.
  unfold filter_geometry in He. rewrite He.
  destruct e; try reflexivity. discriminate Hop.
Qed.

Lemma geometry_filter_other_errors_propagate_witness :
  _apply_geometry_filter AddressesFilter
    (mkGeometryFilter contains_ None (Some "SRID=4326;POINT(1 1)") None)
    broken_db
  = Raise (DatabaseError "connection lost").
Proof.
  apply (@geometry_filter_other_errors_propagate AddressesFilter
           (mkGeometryFilter contains_ None (Some "SRID=4326;POINT(1 1)") None)
           broken_db [] [] (enc_ewkt, "SRID=4326;POINT(1 1)")
           (DatabaseError "connection lost")).
  - reflexivity.
  - constructor.
  - reflexivity.
  - reflexivity.
Defined.

(** ** The filter hierarchy as a whole *)

Lemma general_boundaries_filter_ok (g : GeneralBoundariesFilter)
    (m : ModelClass) :
  is_boundary_model m ->
  _apply_general_boundaries_filter g m = Ok (general_predicates g m).
Proof.
  unfold is_boundary_model, _apply_general_boundaries_filter,
    general_predicates.
  intros Hm.
  assert (H : hasattr m "name" = true
              /\ getattr m "name" = Ok (col m "name")
              /\ getattr m "feature_id" = Ok (col m "feature_id")
              /\ getattr m "code" = Ok (col m "code")).
  { simpl in Hm. repeat (destruct Hm as [<-|Hm]; [repeat split|]).
    contradiction. }
  destruct H as (Hh & Hn & Hf & Hc). rewrite Hh.
  destruct (gb_name g), (truthy_list (gb_feature_ids g)),
    (truthy_list (gb_codes g)); cbn [when_set];
    rewrite ?Hn, ?Hf, ?Hc; reflexivity.
Qed.

Lemma when_general (x : option GeneralBoundariesFilter) (m : ModelClass) :
  is_boundary_model m ->
  when_set x (fun g => _apply_general_boundaries_filter g m)
  = Ok (opt_general x m).
Proof.
  intros Hm. destruct x; simpl; [apply general_boundaries_filter_ok, Hm|].
  reflexivity.
Qed.

Lemma when_string (x : option StringFilter) (f : Attr) :
  when_set x (fun sf => Ok (_filter_by_string_field sf f)) = Ok (opt_string x f).
Proof. destruct x; reflexivity. Qed.

Lemma when_in (x : option (list Z)) (f : Attr) :
  when_set (truthy_list x) (fun vs => Ok [Pred (In_ f vs)]) = Ok (opt_in x f).
Proof. unfold opt_in. destruct (truthy_list x); reflexivity. Qed.

Ltac boundary_model := unfold is_boundary_model; simpl; tauto.

Lemma apply_structure (self : FilterClass) (sf : SearchFilterRequest)
    (db : Session) :
  apply self sf db
  = BaseFilter_apply self sf db +++ Ok (attribute_predicates self sf).
Proof.
  assert (Hs : when_set (streets sf)
                 (fun s =>
                    _apply_general_boundaries_filter (st_general s)
                      models.Streets
                    +++ when_set (st_full_name s)
                          (fun full_name =>
                             Ok (_filter_by_string_field full_name
                                   (col models.Streets "full_name"))))
               = Ok (streets_predicates sf)).
  { unfold streets_predicates. destruct (streets sf) as [s|]; [|reflexivity].
    cbn [when_set]. rewrite general_boundaries_filter_ok by boundary_model.
    rewrite when_string. reflexivity. }
  assert (Ha : when_set (addresses sf) _apply_streets_filters
               = Ok (addresses_predicates sf)).
  { unfold addresses_predicates, _apply_streets_filters.
    destruct (addresses sf) as [a|]; [|reflexivity].
    cbn [when_set]. rewrite !when_string, !when_in. reflexivity. }
  assert (Hr : when_set (rooms sf) _apply_rooms_filters
               = Ok (rooms_predicates sf)).
  { unfold rooms_predicates, _apply_rooms_filters.
    destruct (rooms sf) as [r|]; [|reflexivity].
    cbn [when_set]. rewrite when_string, when_in. reflexivity. }
  destruct self;
    unfold apply, RoomsFilter_apply, AddressesFilter_apply, StreetsFilter_apply,
      ResidentialAreasFilter_apply, EldershipsFilter_apply,
      MunicipalitiesFilter_apply, CountiesFilter_apply, attribute_predicates;
    rewrite ?Hs, ?Ha, ?Hr, ?when_general by boundary_model;
    rewrite ?yield_from_assoc, ?yield_from_Ok; cbv zeta;
    rewrite <- ?app_assoc; reflexivity.
Qed.

Lemma base_filter_without_geometry (self : FilterClass)
    (sf : SearchFilterRequest) (db : Session) :
  geometry sf = None -> BaseFilter_apply self sf db = Ok [].
Proof. unfold BaseFilter_apply. intros ->. reflexivity. Qed.

(** X4.  A group without a geometry filter never makes a filter class
    raise, and its predicates do not depend on the data store: the validity
    check is the only place where a filter consults it. *)
Theorem filter_without_geometry_is_pure (self : FilterClass)
    (sf : SearchFilterRequest) :
  geometry sf = None ->
  exists ps, forall db, apply self sf db = Ok ps.
Proof.
  intros Hg. exists (attribute_predicates self sf). intros db.
  rewrite apply_structure, (base_filter_without_geometry self sf db Hg).
  apply yield_from_nil_l.
Qed.

Lemma filter_without_geometry_is_pure_witness :
  exists ps, forall db,
    apply RoomsFilter
      (mkSearchFilterRequest None None None None None None None
         (Some (mkRoomsFilterSchema (Some [7]) None))) db = Ok ps.
Proof.
  apply (@filter_without_geometry_is_pure RoomsFilter
           (mkSearchFilterRequest None None None None None None None
              (Some (mkRoomsFilterSchema (Some [7]) None)))).
  reflexivity.
Defined.

(** X5.  The geometry of a group is validated before anything else is
    yielded and nothing else in a group can fail, so a group whose geometry
    filter raises is rejected with that exception whatever its other fields
    are. *)
Theorem invalid_geometry_rejects_group (self : FilterClass)
    (sf : SearchFilterRequest) (gf : GeometryFilter) (db : Session) (e : exn) :
  geometry sf = Some gf ->
  _apply_geometry_filter self gf db = Raise e ->
  apply self sf db = Raise e.
Proof.
  intros Hg He. rewrite apply_structure. unfold BaseFilter_apply.
  rewrite Hg. cbn [when_set]. rewrite He. reflexivity.
Qed.

Lemma invalid_geometry_rejects_group_witness :
  apply CountiesFilter
    (mkSearchFilterRequest
       (Some (mkGeometryFilter intersects None (Some "POLYGON((") None))
       (Some (mkGeneralBoundariesFilter (Some [10]) None None))
       None None None None None None) Sample.db
  = Raise (InvalidFilterGeometry "Invalid geometry" "ewkt" "POLYGON((").
Proof.
  apply (@invalid_geometry_rejects_group CountiesFilter _
           (mkGeometryFilter intersects None (Some "POLYGON((") None)
           Sample.db).
  - reflexivity.
  - reflexivity.
Defined.

Local Abbreviation good ts :=
  (fun c => well_formed_predicate c /\ clause_on_tables ts c).

Lemma col_table (m : ModelClass) (n : string) : a_table (col m n) = tablename m.
Proof. unfold col. destruct (assoc n (mc_columns m)); reflexivity. Qed.

Lemma string_field_good (ts : list string) (sf : StringFilter) (f : Attr) :
  In (a_table f) ts -> Forall (good ts) (_filter_by_string_field sf f).
Proof.
  intros Hf. unfold _filter_by_string_field.
  destruct (truthy_str (sf_exact sf)), (truthy_str (sf_starts sf)),
    (truthy_str (sf_contains sf)); repeat constructor; assumption.
Qed.

Lemma number_field_good (ts : list string) (nf : NumberFilter) (f : Attr) :
  In (a_table f) ts -> Forall (good ts) (_filter_by_number_field nf f).
Proof.
  intros Hf. unfold _filter_by_number_field.
  destruct (truthy_num (nf_eq nf)), (truthy_num (nf_lt nf)),
    (truthy_num (nf_lte nf)), (truthy_num (nf_gt nf)),
    (truthy_num (nf_gte nf)); repeat constructor; assumption.
Qed.

Lemma opt_string_good (ts : list string) (x : option StringFilter) (f : Attr) :
  In (a_table f) ts -> Forall (good ts) (opt_string x f).
Proof.
  intros Hf. destruct x; simpl; [apply string_field_good, Hf | constructor].
Qed.

Lemma opt_in_good (ts : list string) (x : option (list Z)) (f : Attr) :
  In (a_table f) ts -> Forall (good ts) (opt_in x f).
Proof.
  intros Hf. unfold opt_in. destruct x as [[|v vs]|]; simpl;
    repeat constructor; try assumption. discriminate.
Qed.

Lemma general_predicates_good (ts : list string) (g : GeneralBoundariesFilter)
    (m : ModelClass) :
  In (tablename m) ts -> Forall (good ts) (general_predicates g m).
Proof.
  intros Hm. unfold general_predicates. rewrite !Forall_app.
  split; [|split].
  - apply (opt_string_good ts (gb_name g)). rewrite col_table. exact Hm.
  - apply (opt_in_good ts (gb_feature_ids g)). rewrite col_table. exact Hm.
  - apply (opt_in_good ts (gb_codes g)). rewrite col_table. exact Hm.
Qed.

Lemma opt_general_good (ts : list string) (x : option GeneralBoundariesFilter)
    (m : ModelClass) :
  In (tablename m) ts -> Forall (good ts) (opt_general x m).
Proof.
  intros Hm. destruct x; simpl; [apply general_predicates_good, Hm|].
  constructor.
Qed.

Lemma attribute_predicates_good (self : FilterClass)
    (sf : SearchFilterRequest) :
  Forall (good (filter_tables self)) (attribute_predicates self sf).
Proof.
  unfold attribute_predicates, streets_predicates, addresses_predicates,
    rooms_predicates.
  destruct self; cbv zeta;
    destruct (streets sf), (addresses sf), (rooms sf);
    rewrite ?Forall_app; repeat split;
    first [ apply opt_general_good | apply general_predicates_good
          | apply opt_string_good | apply opt_in_good | constructor ];
    simpl; tauto.
Qed.

Lemma filter_by_geometry_Ok (db : Session) (raw field : string) (g : Attr)
    (fn : FilterFunc) (from : GeomFromFunc) (l : list Clause) :
  _filter_by_geometry db raw field g fn from = Ok l ->
  l = [Pred (Spatial fn (ST_Transform (GeomFrom from raw) 3346) g)].
Proof.
  unfold _filter_by_geometry.
  destruct (_is_valid_geometry db _) as [[|]|e]; simpl; congruence.
Qed.

Lemma validate_each_good (ts : list string) (db : Session) (g : Attr)
    (m : GeometryFilterMethod) (ers : list (Encoding * string))
    (l : list Clause) :
  In (a_table g) ts ->
  validate_each db g m ers = Ok l -> Forall (good ts) l.
Proof.
  intros Hg. revert l. induction ers as [|er ers IH]; intros l; simpl.
  - intros H. injection H as <-. constructor.
  - intros H. apply bind_Ok_inv in H. destruct H as (xs & Hxs & H).
    apply bind_Ok_inv in H. destruct H as (ys & Hys & H).
    injection H as <-. apply filter_by_geometry_Ok in Hxs. subst xs.
    constructor; [split; [exact I | exact Hg]|]. apply IH. exact Hys.
Qed.

Lemma Meta_geom_field_table (self : FilterClass) (g : Attr) :
  Meta_geom_field self = Some g -> In (a_table g) (filter_tables self).
Proof.
  destruct self; simpl; intros H; injection H as <-; simpl; tauto.
Qed.

Lemma base_filter_good (self : FilterClass) (sf : SearchFilterRequest)
    (db : Session) (l : list Clause) :
  BaseFilter_apply self sf db = Ok l -> Forall (good (filter_tables self)) l.
Proof.
  unfold BaseFilter_apply. destruct (geometry sf) as [gf|]; simpl.
  - destruct (Meta_geom_field_defined self) as [g Hg].
    rewrite apply_geometry_filter_on_Meta, Hg, apply_geometry_filter_on_each.
    apply validate_each_good. apply Meta_geom_field_table, Hg.
  - intros H. injection H as <-. constructor.
Qed.

Lemma apply_good (self : FilterClass) (sf : SearchFilterRequest)
    (db : Session) (ps : list Clause) :
  apply self sf db = Ok ps -> Forall (good (filter_tables self)) ps.
Proof.
  rewrite apply_structure. intros H.
  apply bind_Ok_inv in H. destruct H as (l & Hl & H).
  simpl in H. injection H as <-. apply Forall_app. split.
  - eapply base_filter_good, Hl.
  - apply attribute_predicates_good.
Qed.

(** X6.  Whatever a filter class yields is a list of atomic predicates;
    every IN predicate among them has a non-empty value list (an empty
    [codes] or [feature_ids] list is dropped, never sent as an empty IN); and
    each predicate constrains a column of the class's own table or of one of
    its ancestors' tables. *)
Theorem filter_predicates_well_formed (self : FilterClass)
    (sf : SearchFilterRequest) (db : Session) (ps : list Clause) :
  apply self sf db = Ok ps ->
  Forall well_formed_predicate ps
  /\ Forall (clause_on_tables (filter_tables self)) ps.
Proof.
  intros H. apply apply_good in H. split.
  - eapply Forall_impl; [|exact H]. intros c [Hc _]. exact Hc.
  - eapply Forall_impl; [|exact H]. intros c [_ Hc]. exact Hc.
Qed.

Lemma filter_predicates_well_formed_witness :
  Forall well_formed_predicate
    [Pred (In_ (col models.Counties "code") [10])]
  /\ Forall (clause_on_tables ["counties"; "municipalities"])
       [Pred (In_ (col models.Counties "code") [10])].
Proof.
  apply (@filter_predicates_well_formed MunicipalitiesFilter
           (mkSearchFilterRequest None
              (Some (mkGeneralBoundariesFilter (Some [10]) (Some []) None))
              None None None None None None) Sample.db).
  reflexivity.
Defined.

(** X7.  A filter class honours the fields of its ancestors: the
    predicates of the group's county filter are among those of every class,
    and those of its municipality filter among those of every class but the
    county one. *)
Theorem ancestors_honoured (self : FilterClass) (sf : SearchFilterRequest)
    (db : Session) (ps : list Clause) :
  apply self sf db = Ok ps ->
  (forall g cs,
     counties sf = Some g ->
     _apply_general_boundaries_filter g models.Counties = Ok cs ->
     incl cs ps)
  /\ (self <> CountiesFilter ->
      forall g ms,
        municipalities sf = Some g ->
        _apply_general_boundaries_filter g models.Municipalities = Ok ms ->
        incl ms ps).
Proof.
  rewrite apply_structure. intros H.
  apply bind_Ok_inv in H. destruct H as (l & _ & H).
  simpl in H. injection H as <-. split.
  - intros g cs Hg Hcs c Hc.
    rewrite general_boundaries_filter_ok in Hcs by boundary_model.
    injection Hcs as <-. apply in_or_app. right.
    unfold attribute_predicates. rewrite Hg. cbv zeta. cbn [opt_general].
    destruct self; rewrite ?in_app_iff; tauto.
  - intros Hself g ms Hg Hms c Hc.
    rewrite general_boundaries_filter_ok in Hms by boundary_model.
    injection Hms as <-. apply in_or_app. right.
    unfold attribute_predicates. rewrite Hg. cbv zeta. cbn [opt_general].
    destruct self; rewrite ?in_app_iff; first [tauto | contradiction].
Qed.

Lemma ancestors_honoured_witness :
  incl [Pred (In_ (col models.Counties "code") [10])]
    [Pred (In_ (col models.Counties "code") [10]);
     Pred (In_ (col models.Rooms "code") [7])].
Proof.
  refine (proj1 (@ancestors_honoured RoomsFilter
            (mkSearchFilterRequest None
               (Some (mkGeneralBoundariesFilter (Some [10]) None None))
               None None None None None
               (Some (mkRoomsFilterSchema (Some [7]) None)))
            Sample.db _ _) _ _ _ _).
  - reflexivity.
  - reflexivity.
  - reflexivity.
Defined.

(** ** Errors of a search *)

Lemma materialize_first_failure
    (bf : SearchFilterRequest -> Session -> result (list Clause))
    (db : Session) (pre post : list SearchFilterRequest)
    (g : SearchFilterRequest) (e : exn) :
  Forall (fun g' => exists ps, bf g' db = Ok ps) pre ->
  bf g db = Raise e ->
  materialize bf db (pre ++ g :: post) = Raise e.
Proof.
  intros Hpre Hg. induction Hpre as [|g' pre (ps & Hps) _ IH]; simpl.
  - rewrite Hg. reflexivity.
  - rewrite Hps, IH. reflexivity.
Qed.

Lemma projection_failure_first (self : Service) (db : Session)
    (srid : option Z) (fmt : option GeometryOutputFormat) (e : exn) :
  _get_select_query self srid fmt = Raise e ->
  (forall sort_by_field sort_order request bf params,
     search self db sort_by_field sort_order request bf srid fmt params
     = Raise e)
  /\ (forall code, get_by_code self db code fmt srid = Raise e).
Proof.
  intros H. split.
  - intros. unfold search, search_query. rewrite H. reflexivity.
  - intros. unfold get_by_code. rewrite H. reflexivity.
Qed.

(** X8.  A search fails with the exception of the first filter group, in
    request order, whose materialization raises; the groups after it and the
    sort field play no part, and no page is produced. *)
Theorem search_first_failing_group (self : Service) (db : Session)
    (sort_by_field : string) (sort_order : SearchSortOrder)
    (request : SearchRequest)
    (bf : SearchFilterRequest -> Session -> result (list Clause))
    (srid : option Z) (fmt : option GeometryOutputFormat) (params : Params)
    (q0 : Select) (pre post : list SearchFilterRequest)
    (g : SearchFilterRequest) (e : exn) :
  _get_select_query self srid fmt = Ok q0 ->
  filters request = pre ++ g :: post ->
  Forall (fun g' => exists ps, bf g' db = Ok ps) pre ->
  bf g db = Raise e ->
  search self db sort_by_field sort_order request bf srid fmt params = Raise e.
Proof.
  intros Hq Hf Hpre Hg. unfold search, search_query.
  rewrite Hq. cbn [bind]. rewrite collect_search_filters_spec, Hf.
  rewrite (@materialize_first_failure bf db pre post g e Hpre Hg). reflexivity.
Qed.

(** A valid county group followed by a group with an EWKT that does not
    parse, sorted by a field that does not exist. *)
Lemma search_first_failing_group_witness :
  search CountiesService Sample.db "no_such_field" asc
    (mkSearchRequest
       [Sample.counties_group (mkGeneralBoundariesFilter (Some [10]) None None);
        Sample.geometry_group
          (mkGeometryFilter intersects None (Some "POLYGON((") None);
        Sample.no_filter])
    (apply CountiesFilter) None None Sample.first_page
  = Raise (InvalidFilterGeometry "Invalid geometry" "ewkt" "POLYGON((").
Proof.
  eapply (@search_first_failing_group CountiesService Sample.db
            "no_such_field" asc _ (apply CountiesFilter) None None
            Sample.first_page _
            [Sample.counties_group
               (mkGeneralBoundariesFilter (Some [10]) None None)]
            [Sample.no_filter]).
  - reflexivity.
  - reflexivity.
  - repeat constructor. eexists. reflexivity.
  - reflexivity.
Defined.

(** X9.  Municipalities, elderships, residential areas and streets cannot
    be searched or looked up with an output SRID: the projection calls
    [_get_geometry_field] without its format argument, so both operations
    raise [TypeError] before any filter or the data store is used. *)
Theorem boundary_services_fail_with_srid (self : Service) (srid : option Z) :
  In self [MunicipalitiesService; EldershipsService; ResidentialAreasService;
           StreetsService] ->
  truthy_int srid = true ->
  exists msg,
    (forall db sort_by_field sort_order request bf fmt params,
       search self db sort_by_field sort_order request bf srid fmt params
       = Raise (TypeError msg))
    /\ (forall db code fmt,
          get_by_code self db code fmt srid = Raise (TypeError msg)).
Proof.
  intros Hself Hs.
  exists "_get_geometry_field() missing 1 required positional argument: 'geometry_output_format'".
  assert (H : forall fmt, _get_select_query self srid fmt
                = Raise (TypeError
                    "_get_geometry_field() missing 1 required positional argument: 'geometry_output_format'")).
  { intros fmt. simpl in Hself.
    destruct Hself as [<-|[<-|[<-|[<-|[]]]]];
      unfold _get_select_query, plus_if; rewrite Hs; reflexivity. }
  split.
  - intros db sort_by_field sort_order request bf fmt params.
    apply (proj1 (@projection_failure_first self db srid fmt _ (H fmt))).
  - intros db code fmt.
    apply (proj2 (@projection_failure_first self db srid fmt _ (H fmt))).
Qed.

Lemma boundary_services_fail_with_srid_witness :
  exists msg,
    get_by_code StreetsService Sample.db 5 (Some fmt_ewkt) (Some 4326)
    = Raise (TypeError msg).
Proof.
  destruct (@boundary_services_fail_with_srid StreetsService (Some 4326))
    as (msg & _ & H).
  - simpl. tauto.
  - reflexivity.
  - exists msg. apply H.
Defined.

(** X10.  Addresses and parcels cannot be searched or looked up without a
    geometry format (the default of [get_by_code]): the projection is built
    unconditionally and the missing format raises [ValueError]. *)
Theorem addresses_parcels_need_format (self : Service) :
  In self [AddressesService; ParcelsService] ->
  (forall db sort_by_field sort_order request bf srid params,
     search self db sort_by_field sort_order request bf srid None params
     = Raise (ValueError "Unable to map geometry output format None"))
  /\ (forall db code srid,
        get_by_code self db code None srid
        = Raise (ValueError "Unable to map geometry output format None")).
Proof.
  intros Hself.
  assert (H : forall srid, _get_select_query self srid None
                = Raise (ValueError "Unable to map geometry output format None")).
  { intros srid. simpl in Hself. destruct Hself as [<-|[<-|[]]]; reflexivity. }
  split.
  - intros db sort_by_field sort_order request bf srid params.
    apply (proj1 (@projection_failure_first self db srid None _ (H srid))).
  - intros db code srid.
    apply (proj2 (@projection_failure_first self db srid None _ (H srid))).
Qed.

Lemma addresses_parcels_need_format_witness :
  get_by_code AddressesService Sample.db 1 None None
  = Raise (ValueError "Unable to map geometry output format None").
Proof.
  apply (proj2 (@addresses_parcels_need_format AddressesService
                  (or_introl eq_refl))).
Defined.

(** ** Lookup by code *)

Lemma first_filter (p : Row -> bool) (l : list Row) :
  first (filter p l) = find p l.
Proof.
  induction l as [|x l IH]; simpl; [reflexivity|].
  destruct (p x); [reflexivity | exact IH].
Qed.

Lemma filter_by_code_criterion (self : Service) (q : Select) (code : Z) :
  self <> ParcelsService ->
  _filter_by_code self q code
  = where_ q (Pred (CodeEq (col (model_class self) "code") code)).
Proof. destruct self; intros H; try reflexivity. contradiction. Qed.

(** X11.  For every entity but parcels, lookup by code returns the first
    row of the entity, in the order the data store lists them, on which the
    code equality is true, and nothing when there is no such row. *)
Theorem lookup_returns_first_match (self : Service) (db : Session) (code : Z)
    (fmt : option GeometryOutputFormat) (srid : option Z) (q0 : Select) :
  self <> ParcelsService ->
  _get_select_query self srid fmt = Ok q0 ->
  let rows := table_rows db (tablename (model_class self)) in
  get_by_code self db code fmt srid = Ok (find (code_matches db self code) rows)
  /\ (forall r, get_by_code self db code fmt srid = Ok (Some r) ->
        In r rows /\ code_matches db self code r = true)
  /\ (get_by_code self db code fmt srid = Ok None ->
      forall r, In r rows -> code_matches db self code r = false).
Proof.
  intros Hself Hq rows.
  assert (E : get_by_code self db code fmt srid
              = Ok (find (code_matches db self code) rows)).
  { unfold get_by_code. rewrite Hq. cbn [bind].
    destruct (get_select_query_shape _ _ _ Hq) as (Hf & Hw & Ho).
    rewrite (@filter_by_code_criterion self q0 code Hself).
    unfold execute, where_. cbn [sel_where sel_order_by sel_from].
    rewrite Hw, Ho, Hf. cbn [app].
    rewrite sort_rows_always_le by reflexivity.
    rewrite <- first_filter. f_equal. f_equal. apply filter_ext.
    intros r. unfold where_holds, code_matches. cbn [forallb blank eval3 orb].
    apply andb_true_r. }
  split; [exact E | split].
  - intros r Hr. rewrite E in Hr. injection Hr as Hr.
    apply find_some in Hr. exact Hr.
  - intros Hn r Hr. rewrite E in Hn. injection Hn as Hn.
    apply (find_none _ _ Hn r Hr).
Qed.

Lemma lookup_returns_first_match_witness :
  get_by_code CountiesService Sample.db 10 None None
  = Ok (find (code_matches Sample.db CountiesService 10)
          (table_rows Sample.db "counties")).
Proof.
  refine (proj1 (@lookup_returns_first_match CountiesService Sample.db 10
                   None None _ _ eq_refl)).
  discriminate.
Defined.

(** ** Shape and meaning of the WHERE clause *)

Lemma materialize_length
    (bf : SearchFilterRequest -> Session -> result (list Clause))
    (db : Session) (fs : list SearchFilterRequest)
    (pss : list (list Clause)) :
  materialize bf db fs = Ok pss -> List.length pss = List.length fs.
Proof.
  revert pss. induction fs as [|g fs IH]; intros pss; simpl.
  - intros H. injection H as <-. reflexivity.
  - intros H. apply bind_Ok_inv in H. destruct H as (ps & _ & H).
    apply bind_Ok_inv in H. destruct H as (pss' & Hpss & H).
    injection H as <-. simpl. f_equal. apply IH. exact Hpss.
Qed.

Lemma materialize_Forall
    (bf : SearchFilterRequest -> Session -> result (list Clause))
    (db : Session) (P : list Clause -> Prop) (fs : list SearchFilterRequest)
    (pss : list (list Clause)) :
  (forall g ps, bf g db = Ok ps -> P ps) ->
  materialize bf db fs = Ok pss -> Forall P pss.
Proof.
  intros HP. revert pss. induction fs as [|g fs IH]; intros pss; simpl.
  - intros H. injection H as <-. constructor.
  - intros H. apply bind_Ok_inv in H. destruct H as (ps & Hps & H).
    apply bind_Ok_inv in H. destruct H as (pss' & Hpss & H).
    injection H as <-. constructor; [eapply HP, Hps | apply IH, Hpss].
Qed.

(** X12.  The WHERE of a search is a single OR whose branches are ANDs of
    non-empty predicate lists, at most one branch per filter group: [and_]
    is never called without arguments. *)
Theorem search_where_shape (self : Service) (db : Session)
    (sort_by_field : string) (sort_order : SearchSortOrder)
    (request : SearchRequest)
    (bf : SearchFilterRequest -> Session -> result (list Clause))
    (srid : option Z) (fmt : option GeometryOutputFormat) (q : Select) :
  search_query self db sort_by_field sort_order request bf srid fmt = Ok q ->
  exists cs,
    sel_where q = [or_ cs]
    /\ (List.length cs <= List.length (filters request))%nat
    /\ Forall (fun c => exists ps, c = and_ ps /\ ps <> []) cs.
Proof.
  intros Hq.
  destruct (search_query_inv _ _ _ _ _ _ _ _ Hq)
    as (pss & _ & Hm & _ & _ & Hw & _).
  exists (map and_ (filter nonempty pss)). split; [exact Hw | split].
  - rewrite length_map, <- (materialize_length _ _ _ Hm).
    apply filter_length_le.
  - apply Forall_forall. intros c Hc. apply in_map_iff in Hc.
    destruct Hc as (ps & <- & Hps). apply filter_In in Hps.
    exists ps. split; [reflexivity|]. destruct ps; [|discriminate].
    destruct Hps as [_ Hps]. discriminate Hps.
Qed.

Lemma search_where_shape_witness :
  exists q cs,
    search_query CountiesService Sample.db "name" desc
      (mkSearchRequest
         [Sample.no_filter;
          Sample.counties_group
            (mkGeneralBoundariesFilter (Some [2]) None None)])
      (apply CountiesFilter) None None = Ok q
    /\ sel_where q = [or_ cs] /\ (List.length cs <= 2)%nat.
Proof.
  eexists. 
  match goal with
  | |- exists cs, ?L = Ok ?q /\ _ =>
      assert (E : L = Ok q) by reflexivity;
      destruct (search_where_shape _ _ _ _ _ _ _ _ E) as (cs & Hw & Hl & _);
      exists cs; split; [exact E | split; [exact Hw | exact Hl]]
  end.
Defined.

Lemma well_formed_is_atom (c : Clause) :
  well_formed_predicate c -> exists a, c = Pred a.
Proof. destruct c; simpl; [eauto | contradiction | contradiction]. Qed.

Lemma and_true_inv (db : Session) (r : Row) (ps : list Clause) :
  Forall well_formed_predicate ps ->
  eval3 db r (and_ ps) = Some true -> Forall (satisfied db r) ps.
Proof.
  induction 1 as [|p ps Hp _ IH]; [constructor|].
  destruct (well_formed_is_atom _ Hp) as [a ->]. simpl. intros H.
  simpl in IH.
  destruct (holds db a r) as [[|]|] eqn:Ha;
    destruct (fold_right _ _ ps) as [[|]|]; try discriminate.
  constructor; [exists a; auto | apply IH; reflexivity].
Qed.

Lemma or_true_inv (db : Session) (r : Row) (cs : list Clause) :
  eval3 db r (or_ cs) = Some true ->
  exists c, In c cs /\ eval3 db r c = Some true.
Proof.
  induction cs as [|c cs IH]; simpl; [discriminate|].
  simpl in IH. destruct (blank c).
  - intros H. destruct (IH H) as (c' & Hin & Hc'). exists c'. auto.
  - destruct (eval3 db r c) as [[|]|] eqn:Hc.
    + intros _. exists c. auto.
    + destruct (fold_right _ _ cs) as [[|]|]; try discriminate.
      intros _. destruct (IH eq_refl) as (c' & Hin & Hc'). exists c'. auto.
    + destruct (fold_right _ _ cs) as [[|]|]; try discriminate.
      intros _. destruct (IH eq_refl) as (c' & Hin & Hc'). exists c'. auto.
Qed.

Lemma or_of_ands_not_blank (pss : list (list Clause)) :
  Forall (Forall well_formed_predicate) pss ->
  filter nonempty pss <> [] ->
  blank (or_of_ands pss) = false.
Proof.
  intros Hwf Hne. unfold or_of_ands. simpl.
  destruct (filter nonempty pss) as [|ps l] eqn:E; [contradiction|].
  assert (Hin : In ps (filter nonempty pss)) by (rewrite E; left; reflexivity).
  apply filter_In in Hin. destruct Hin as [Hin Hps].
  destruct ps as [|p ps]; [discriminate|].
  rewrite Forall_forall in Hwf. specialize (Hwf _ Hin).
  inversion Hwf as [|? ? Hp _]; subst.
  destruct (well_formed_is_atom _ Hp) as [a ->]. reflexivity.
Qed.

Lemma or_of_ands_sound (db : Session) (r : Row) (pss : list (list Clause)) :
  Forall (Forall well_formed_predicate) pss ->
  filter nonempty pss <> [] ->
  where_holds db [or_of_ands pss] r = true ->
  exists ps, In ps pss /\ ps <> [] /\ Forall (satisfied db r) ps.
Proof.
  intros Hwf Hne H. unfold where_holds in H. cbn [forallb] in H.
  rewrite (or_of_ands_not_blank Hwf Hne) in H. simpl in H.
  rewrite andb_true_r in H.
  destruct (fold_right _ _ _) as [[|]|] eqn:E; try discriminate.
  destruct (@or_true_inv db r (map and_ (filter nonempty pss)) E)
    as (c & Hc & Hev).
  apply in_map_iff in Hc. destruct Hc as (ps & <- & Hps).
  apply filter_In in Hps. destruct Hps as [Hin Hn].
  exists ps. split; [exact Hin | split].
  - destruct ps; [discriminate Hn | discriminate].
  - apply and_true_inv; [|exact Hev].
    rewrite Forall_forall in Hwf. apply Hwf, Hin.
Qed.

Lemma items_in_result (db : Session) (params : Params) (q : Select) (r : Row) :
  In r (items (paginate db params q)) -> In r (execute db q).
Proof.
  unfold paginate. simpl. intros H.
  set (rest := skipn ((page params - 1) * size params) (execute db q)) in *.
  assert (Hrest : In r rest).
  { rewrite <- (firstn_skipn (size params) rest). apply in_or_app. auto. }
  rewrite <- (firstn_skipn ((page params - 1) * size params) (execute db q)).
  apply in_or_app. right. exact Hrest.
Qed.

(** X13.  With any filter class, as soon as one group of the request
    contributes a predicate, every row on every page of a search is a row of
    the entity on which all predicates of some contributing group are
    true. *)
Theorem returned_rows_satisfy_a_group (self : Service) (fc : FilterClass)
    (db : Session) (sort_by_field : string) (sort_order : SearchSortOrder)
    (request : SearchRequest) (srid : option Z)
    (fmt : option GeometryOutputFormat) (params : Params) (pg : Page) :
  search self db sort_by_field sort_order request (apply fc) srid fmt params
  = Ok pg ->
  exists pss,
    materialize (apply fc) db (filters request) = Ok pss
    /\ (filter nonempty pss <> [] ->
        forall r, In r (items pg) ->
          In r (table_rows db (tablename (model_class self)))
          /\ exists ps, In ps pss /\ ps <> [] /\ Forall (satisfied db r) ps).
Proof.
  intros H. destruct (search_inv _ _ _ _ _ _ _ _ _ H) as (q & Hq & ->).
  destruct (search_query_inv _ _ _ _ _ _ _ _ Hq)
    as (pss & _ & Hm & _ & Hf & Hw & _).
  exists pss. split; [exact Hm|]. intros Hne r Hr.
  apply items_in_result, execute_In in Hr. rewrite Hf, Hw in Hr.
  destruct Hr as [Hin Hwh]. split; [exact Hin|].
  apply or_of_ands_sound; [|exact Hne | exact Hwh].
  eapply materialize_Forall; [|exact Hm].
  intros g ps Hps. apply apply_good in Hps.
  eapply Forall_impl; [|exact Hps]. intros c [Hc _]. exact Hc.
Qed.

Lemma returned_rows_satisfy_a_group_witness :
  let r := Sample.county 10 1 "Vilniaus apskritis" in
  search CountiesService Sample.db "code" asc
    (mkSearchRequest
       [Sample.counties_group (mkGeneralBoundariesFilter (Some [10]) None None)])
    (apply CountiesFilter) None None Sample.first_page
  = Ok (mkPage [r] 1 1 50)
  /\ exists ps, ps <> [] /\ Forall (satisfied Sample.db r) ps.
Proof.
  intros r.
  assert (E : search CountiesService Sample.db "code" asc
                (mkSearchRequest
                   [Sample.counties_group
                      (mkGeneralBoundariesFilter (Some [10]) None None)])
                (apply CountiesFilter) None None Sample.first_page
              = Ok (mkPage [r] 1 1 50)) by reflexivity.
  split; [exact E|].
  destruct (returned_rows_satisfy_a_group _ _ _ _ _ _ _ _ _ E)
    as (pss & Hm & Hrows).
  injection Hm as <-.
  destruct (Hrows ltac:(discriminate) r (or_introl eq_refl))
    as (_ & ps & _ & Hne & Hsat).
  exists ps. split; assumption.
Defined.

(** ** The primary sort key *)

Lemma string_compare_le_trans (s t u : string) :
  String.compare s t <> Gt -> String.compare t u <> Gt ->
  String.compare s u <> Gt.
Proof.
  revert t u. induction s as [|a s IH]; intros [|b t] [|c u]; simpl;
    try congruence.
  unfold Ascii.compare.
  destruct (N.compare_spec (N_of_ascii a) (N_of_ascii b)) as [Hab|Hab|Hab],
    (N.compare_spec (N_of_ascii b) (N_of_ascii c)) as [Hbc|Hbc|Hbc],
    (N.compare_spec (N_of_ascii a) (N_of_ascii c)) as [Hac|Hac|Hac];
    try congruence; try lia.
  apply IH.
Qed.

Lemma value_le_trans (u v w : value) :
  value_le u v -> value_le v w -> value_le u w.
Proof.
  unfold value_le.
  destruct u as [|p|s], v as [|q|t], w as [|x|y]; simpl; try congruence.
  - rewrite <- !Qle_alt. apply Qle_trans.
  - apply string_compare_le_trans.
Qed.

Lemma sort_by_first_term (db : Session) (sort_order : SearchSortOrder)
    (a : Attr) (ts : list OrderTerm) (r1 r2 : Row) :
  rows_leb db (sort_by_term sort_order a :: ts) r1 r2 = true ->
  in_direction sort_order (sort_key db a r1) (sort_key db a r2).
Proof.
  unfold rows_leb, sort_by_term, sort_key.
  set (e := if is_String (a_type a) then OCollate a "NOCASE" else OAttr a).
  destruct sort_order; cbn [is_desc rows_compare term_compare in_direction].
  - unfold value_le.
    destruct (value_compare (order_value db e r1) (order_value db e r2));
      intros H; congruence.
  - intros H. apply value_le_flip.
    destruct (value_compare (order_value db e r1) (order_value db e r2));
      simpl in *; congruence.
Qed.

Lemma sort_key_direction_trans (db : Session) (sort_order : SearchSortOrder)
    (a : Attr) :
  Relations_1.Transitive
    (fun r1 r2 => in_direction sort_order (sort_key db a r1) (sort_key db a r2)).
Proof.
  intros r1 r2 r3. destruct sort_order; simpl; intros H12 H23;
    eapply value_le_trans; eauto.
Qed.

(** X14.  A search sorted by any other field than the two naturally
    sorted ones orders its rows, and the items of every page, by that field
    in the requested direction; a text field is compared with its ASCII
    letters folded to lower case, so the order ignores case. *)
Theorem primary_sort_key_order (self : Service) (db : Session)
    (sort_by_field : string) (sort_order : SearchSortOrder)
    (request : SearchRequest)
    (bf : SearchFilterRequest -> Session -> result (list Clause))
    (srid : option Z) (fmt : option GeometryOutputFormat) (q : Select) :
  search_query self db sort_by_field sort_order request bf srid fmt = Ok q ->
  is_natural_field sort_by_field = false ->
  exists sort_attr,
    getattr (model_class self) sort_by_field = Ok sort_attr
    /\ (let ordered r1 r2 :=
          in_direction sort_order (sort_key db sort_attr r1)
            (sort_key db sort_attr r2) in
        StronglySorted ordered (execute db q)
        /\ forall params, StronglySorted ordered (items (paginate db params q)))
    /\ (a_type sort_attr = String_ ->
        forall r s, row_get r sort_attr = VText s ->
          sort_key db sort_attr r = VText (str_lower s)).
Proof.
  intros Hq Hnat.
  destruct (search_query_inv _ _ _ _ _ _ _ _ Hq)
    as (pss & sort_attr & _ & Hattr & _ & _ & Ho).
  rewrite Hnat in Ho. cbn [app] in Ho.
  exists sort_attr. split; [exact Hattr | split].
  - intros ordered.
    assert (Hss : StronglySorted ordered (execute db q)).
    { apply Sorted_StronglySorted; [apply sort_key_direction_trans|].
      eapply Sorted_weaken; [|apply execute_sorted].
      intros r1 r2. rewrite Ho. apply sort_by_first_term. }
    split; [exact Hss|]. intros params. apply StronglySorted_slice, Hss.
  - intros Hty r s Hr. unfold sort_key. rewrite Hty. simpl.
    rewrite Hr. reflexivity.
Qed.

Lemma primary_sort_key_order_witness :
  exists q,
    search_query CountiesService Sample.db "name" desc (mkSearchRequest [])
      (apply CountiesFilter) None None = Ok q
    /\ StronglySorted
         (fun r1 r2 =>
            value_le (sort_key Sample.db (col models.Counties "name") r2)
              (sort_key Sample.db (col models.Counties "name") r1))
         (execute Sample.db q).
Proof.
  eexists. split; [reflexivity|].
  match goal with
  | |- StronglySorted _ (execute _ ?q) =>
      destruct (@primary_sort_key_order CountiesService Sample.db "name" desc
                  (mkSearchRequest []) (apply CountiesFilter) None None q
                  eq_refl eq_refl) as (a & Ha & Hs & _)
  end.
  injection Ha as <-. exact (proj1 Hs).
Defined.

(** X15.  The sort field and direction of a search only arrange the
    result: two searches that differ in nothing else return the same rows up
    to order, and the same total. *)
Theorem sorting_keeps_the_rows (self : Service) (db : Session)
    (field1 field2 : string) (order1 order2 : SearchSortOrder)
    (request : SearchRequest)
    (bf : SearchFilterRequest -> Session -> result (list Clause))
    (srid : option Z) (fmt : option GeometryOutputFormat) (q1 q2 : Select) :
  search_query self db field1 order1 request bf srid fmt = Ok q1 ->
  search_query self db field2 order2 request bf srid fmt = Ok q2 ->
  Permutation (execute db q1) (execute db q2)
  /\ forall params1 params2,
       total (paginate db params1 q1) = total (paginate db params2 q2).
Proof.
  intros H1 H2.
  destruct (search_query_inv _ _ _ _ _ _ _ _ H1)
    as (pss1 & _ & Hm1 & _ & Hf1 & Hw1 & _).
  destruct (search_query_inv _ _ _ _ _ _ _ _ H2)
    as (pss2 & _ & Hm2 & _ & Hf2 & Hw2 & _).
  rewrite Hm1 in Hm2. injection Hm2 as <-.
  assert (Hp : Permutation (execute db q1) (execute db q2)).
  { unfold execute. rewrite Hf1, Hf2, Hw1, Hw2.
    eapply Permutation_trans; [apply sort_rows_perm|].
    apply Permutation_sym, sort_rows_perm. }
  split; [exact Hp|]. intros params1 params2. unfold paginate. simpl.
  apply Permutation_length, Hp.
Qed.

Lemma sorting_keeps_the_rows_witness :
  exists q1 q2,
    search_query CountiesService Sample.db "name" desc (mkSearchRequest [])
      (apply CountiesFilter) None None = Ok q1
    /\ search_query CountiesService Sample.db "code" asc (mkSearchRequest [])
         (apply CountiesFilter) None None = Ok q2
    /\ Permutation (execute Sample.db q1) (execute Sample.db q2).
Proof.
  eexists. eexists. split; [reflexivity|]. split; [reflexivity|].
  refine (proj1 (@sorting_keeps_the_rows CountiesService Sample.db "name"
                   "code" desc asc (mkSearchRequest []) (apply CountiesFilter)
                   None None _ _ eq_refl eq_refl)).
Defined.

(** ** The parcel filter *)

Lemma when_status (x : option StatusTypesFilterSchema) :
  when_set x _apply_status_filters = Ok (status_predicates x).
Proof.
  destruct x as [st|]; [|reflexivity].
  unfold status_predicates, _apply_status_filters. cbn [when_set].
  rewrite !when_string, when_in. reflexivity.
Qed.

Lemma when_parcels (x : option ParcelsFilterSchema) :
  when_set x _apply_parcels_filters = Ok (parcels_predicates x).
Proof.
  destruct x as [pc|]; [|reflexivity].
  unfold parcels_predicates, _apply_parcels_filters. cbn [when_set].
  rewrite when_string, when_in.
  destruct (pc_area_ha pc); reflexivity.
Qed.

Lemma purposes_filters_raise (pf : PurposeTypeFilterSchema) :
  _apply_purposes_filters pf
  = Raise (AttributeError
      "'PurposeTypeFilter' object has no attribute 'purpose_group'").
Proof.
  unfold _apply_purposes_filters. rewrite when_in. reflexivity.
Qed.

(** X16.  A parcel filter group that sets [purposes] can never be
    materialized: [_apply_purposes_filters] reads [purpose_group], which the
    purpose filter schema does not declare, so the group raises
    [AttributeError] (or, before that, the error of its geometry). *)
Theorem parcel_purposes_always_fail (sf : ParcelSearchFilterRequest)
    (pf : PurposeTypeFilterSchema) (db : Session) :
  p_purposes sf = Some pf ->
  (forall ps, ParcelsFilter_apply sf db <> Ok ps)
  /\ (forall l, ParcelsFilter_base sf db = Ok l ->
        ParcelsFilter_apply sf db
        = Raise (AttributeError
            "'PurposeTypeFilter' object has no attribute 'purpose_group'")).
Proof.
  intros Hp.
  unfold ParcelsFilter_apply, ParcelsFilter_municipalities,
    ParcelsFilter_counties, ParcelsFilter_purposes, ParcelsFilter_statuses.
  rewrite Hp, when_status. cbn [when_set]. rewrite purposes_filters_raise.
  destruct (ParcelsFilter_base sf db) as [l|e]; split; intros;
    simpl; congruence.
Qed.

Lemma parcel_purposes_always_fail_witness :
  ParcelsFilter_apply
    (mkParcelSearchFilterRequest None None None
       (Some (mkPurposeTypeFilterSchema (Some [3]) None None None)) None None)
    Sample.db
  = Raise (AttributeError
      "'PurposeTypeFilter' object has no attribute 'purpose_group'").
Proof.
  apply (proj2 (@parcel_purposes_always_fail
                  (mkParcelSearchFilterRequest None None None
                     (Some (mkPurposeTypeFilterSchema (Some [3]) None None None))
                     None None)
                  (mkPurposeTypeFilterSchema (Some [3]) None None None)
                  Sample.db eq_refl) []).
  reflexivity.
Defined.

(** X17.  Without [purposes], a parcel filter group can fail only through
    its geometry, and it yields its predicates in the order of the method
    resolution: geometry, statuses, counties, municipalities, and last the
    parcel's own (cadastral number, unique numbers, area). *)
Theorem parcel_filter_order (sf : ParcelSearchFilterRequest) (db : Session) :
  p_purposes sf = None ->
  ParcelsFilter_apply sf db
  = ParcelsFilter_base sf db
    +++ Ok (status_predicates (p_statuses sf)
            ++ opt_general (p_counties sf) models.Counties
            ++ opt_general (p_municipalities sf) models.Municipalities
            ++ parcels_predicates (p_parcels sf)).
Proof.
  intros Hp.
  unfold ParcelsFilter_apply, ParcelsFilter_municipalities,
    ParcelsFilter_counties, ParcelsFilter_purposes, ParcelsFilter_statuses.
  rewrite Hp, when_status, when_parcels, !when_general by boundary_model.
  cbn [when_set].
  rewrite !yield_from_assoc, ?yield_from_Ok. cbn [app]. reflexivity.
Qed.

Lemma parcel_filter_order_witness :
  ParcelsFilter_apply
    (mkParcelSearchFilterRequest None
       (Some (mkGeneralBoundariesFilter (Some [10]) None None)) None None
       (Some (mkStatusTypesFilterSchema (Some [1]) None None None None))
       (Some (mkParcelsFilterSchema None None None
                (Some (mkNumberFilter None (Some 2%Q) None None None)))))
    Sample.db
  = Ok [Pred (In_ (col models.StatusTypes "status_id") [1]);
        Pred (In_ (col models.Counties "code") [10]);
        Pred (NumGt (col models.Parcels "area_ha") 2%Q)].
Proof.
  etransitivity; [apply parcel_filter_order; reflexivity | reflexivity].
Defined.

(** ** The projection *)

(** X18.  Whenever a projection is built, the query starts from the
    service's own table with no criterion and no ordering, and its columns
    are the flat and nested columns followed by at most one geometry column,
    which is the service's stored geometry transformed to the SRID asked
    for. *)
Theorem projection_shape (self : Service) (srid : option Z)
    (fmt : option GeometryOutputFormat) (q : Select) :
  _get_select_query self srid fmt = Ok q ->
  sel_from q = model_class self
  /\ sel_where q = []
  /\ sel_order_by q = []
  /\ exists flat geo,
       sel_columns q = flat ++ geo
       /\ Forall (fun c => is_geometry_label c = false) flat
       /\ (geo = []
           \/ exists ty, geo = [GeometryLabel (geometry_source self) srid ty]).
Proof.
  intros H.
  destruct (get_select_query_shape _ _ _ H) as (Hf & Hw & Ho).
  repeat (split; [assumption|]).
  unfold _get_select_query, plus_if, _get_geometry_field,
    _get_geometry_field_two_args, _get_geometry_output_type in H.
  destruct self, (truthy_int srid), fmt as [[|]|]; simpl in H;
    try discriminate; injection H as <-;
    match goal with
    | |- exists flat geo, sel_columns ?q = _ /\ _ =>
        exists (filter (fun c => negb (is_geometry_label c)) (sel_columns q)),
          (filter is_geometry_label (sel_columns q))
    end;
    (split; [reflexivity|]);
    (split; [simpl; repeat constructor|]);
    first [left; reflexivity | right; eexists; reflexivity].
Qed.

Lemma projection_shape_witness :
  exists q,
    _get_select_query CountiesService (Some 4326) (Some fmt_ewkt) = Ok q
    /\ sel_from q = models.Counties
    /\ sel_where q = []
    /\ sel_order_by q = [].
Proof.
  eexists.
  match goal with
  | |- ?L = Ok ?q /\ _ =>
      assert (E : L = Ok q) by reflexivity;
      destruct (projection_shape _ _ _ E) as (Hf & Hw & Ho & _)
  end.
  split; [exact E | split; [exact Hf | split; [exact Hw | exact Ho]]].
Defined.
